(** * HTTP-Aware Forms: a shallow embedding of [http-aware.js]

    The development follows the source file top to bottom: the
    [COMBINABLE_HEADERS] table, the [RequestHeader] element ([inputs],
    [values], [interpolate], [computeValue]) and the [HTTPAwareForm] element
    ([formatValue], [collectHeaders], [collectFormData], [encodeBody],
    [buildRequest], [submit], [requestSubmit]).

    Modelling conventions.
    - A JavaScript string is a Rocq [string]: a sequence of code units in the
      range 0..255.  Code units above 255 are outside the model.
    - The regular expressions of the source are written out as the matchers
      they denote; each matcher describes its expression.  All of them are
      deterministic (every class that is repeated excludes the character that
      has to follow it), so leftmost greedy matching needs no backtracking.
    - The host supplies the document: the listed elements of the form, the
      request-header fieldsets in document order, the entry list that
      [new FormData(form, submitter)] constructs, the validity of the form
      and the listeners registered for its submit event.  They are fields of
      [FormDOM] or arguments of the operations.
    - [Map] keeps insertion order and is an association list; [Set] and the
      object returned by [Object.fromEntries] are used for membership and
      lookup only and are a [gset] and a [gmap].
    - Calls that leave the program ([reportValidity], [dispatchEvent],
      [fetch]) are recorded, in order, in a trace.  A handler of the submit
      event reads the event and the form and may cancel the event; it does
      not write to the form and does not call back into it.  What the
      element does once the promise of [fetch] settles is a second trace, of
      [BrowsingEffect]s.
    - [buildRequest] computes the arguments it hands to [new Request]; the
      constructor, which can throw, is [new_Request].  [submit] and
      [requestSubmit] describe the calls in which it returns; when it
      throws, the call ends there with nothing dispatched and nothing
      fetched. *)

From Stdlib Require Import Ascii.
From stdpp Require Import base list strings gmap.

Local Open Scope char_scope.

(** ** Character classes of the regular expressions *)

Definition in_range (lo hi c : ascii) : bool := (lo <=? c) && (c <=? hi).

Definition is_lower (c : ascii) : bool := in_range "a" "z" c.
Definition is_upper (c : ascii) : bool := in_range "A" "Z" c.
Definition is_digit (c : ascii) : bool := in_range "0" "9" c.

(** [[a-zA-Z_]] *)
Definition is_ident_start (c : ascii) : bool :=
  is_lower c || is_upper c || (c =? "_").

(** [[a-zA-Z0-9_-]] *)
Definition is_ident_char (c : ascii) : bool :=
  is_lower c || is_upper c || is_digit c || (c =? "_") || (c =? "-").

(** [\w], that is [[A-Za-z0-9_]] *)
Definition is_word (c : ascii) : bool :=
  is_lower c || is_upper c || is_digit c || (c =? "_").

(** [[a-zA-Z_-]] *)
Definition is_key_char (c : ascii) : bool :=
  is_lower c || is_upper c || (c =? "_") || (c =? "-").

(** [\s] below code unit 256: TAB, LF, VT, FF, CR, SPACE and NBSP. *)
Definition is_space (c : ascii) : bool :=
  in_range "009" "013" c || (c =? " ") || (c =? "160").

Definition NUL : ascii := "000".
Definition LBRACE : ascii := "{".
Definition RBRACE : ascii := "}".

Local Close Scope char_scope.

(** ** String primitives *)

(** The longest prefix whose characters satisfy [p], and the rest. *)
Fixpoint span (p : ascii -> bool) (s : string) : string * string :=
  match s with
  | String c r =>
      if p c then let '(a, b) := span p r in (String c a, b) else (EmptyString, s)
  | EmptyString => (EmptyString, EmptyString)
  end.

Fixpoint string_forall (p : ascii -> bool) (s : string) : bool :=
  match s with
  | String c r => p c && string_forall p r
  | EmptyString => true
  end.

(** [s.replace(/ab/g, rep)] for a pattern of two literal characters. *)
Fixpoint replace2 (a b : ascii) (rep s : string) : string :=
  match s with
  | String c1 (String c2 r as t) =>
      if Ascii.eqb c1 a && Ascii.eqb c2 b then rep +:+ replace2 a b rep r
      else String c1 (replace2 a b rep t)
  | _ => s
  end.

(** [s.replace(/abc/g, rep)] for a pattern of three literal characters. *)
Fixpoint replace3 (a b c : ascii) (rep s : string) : string :=
  match s with
  | String c1 (String c2 (String c3 r) as t) =>
      if Ascii.eqb c1 a && Ascii.eqb c2 b && Ascii.eqb c3 c
      then rep +:+ replace3 a b c rep r
      else String c1 (replace3 a b c rep t)
  | String c1 t => String c1 (replace3 a b c rep t)
  | EmptyString => EmptyString
  end.

(** [String.prototype.toLowerCase] on code units below 256: [A-Z] and the
    Latin-1 capitals U+00C0..U+00DE (without the multiplication sign U+00D7)
    move up by 32. *)
Definition lower_char (c : ascii) : ascii :=
  let n := nat_of_ascii c in
  if ((65 <=? n) && (n <=? 90) || (192 <=? n) && (n <=? 222) && negb (n =? 215))%nat
  then ascii_of_nat (n + 32) else c.

Fixpoint toLowerCase (s : string) : string :=
  match s with
  | String c r => String (lower_char c) (toLowerCase r)
  | EmptyString => EmptyString
  end.

(** [String.prototype.toUpperCase] on code units below 256: [a-z] and the
    Latin-1 small letters U+00E0..U+00FE (without the division sign U+00F7)
    move down by 32.  The capitals of U+00B5, U+00DF and U+00FF are not a
    single code unit below 256; strings holding them are outside the model. *)
Definition upper_char (c : ascii) : ascii :=
  let n := nat_of_ascii c in
  if ((97 <=? n) && (n <=? 122) || (224 <=? n) && (n <=? 254) && negb (n =? 247))%nat
  then ascii_of_nat (n - 32) else c.

Fixpoint toUpperCase (s : string) : string :=
  match s with
  | String c r => String (upper_char c) (toUpperCase r)
  | EmptyString => EmptyString
  end.

(** [parts.join(sep)] *)
Fixpoint join (sep : string) (parts : list string) : string :=
  match parts with
  | [] => EmptyString
  | [x] => x
  | x :: rest => x +:+ sep +:+ join sep rest
  end.

(** [s.split(',')]: always at least one piece. *)
Fixpoint split_comma (s : string) : list string :=
  match s with
  | EmptyString => [EmptyString]
  | String c r =>
      if Ascii.eqb c "," then EmptyString :: split_comma r
      else match split_comma r with
           | x :: rest => String c x :: rest
           | [] => [String c EmptyString]
           end
  end.

Fixpoint trim_start (s : string) : string :=
  match s with
  | String c r => if is_space c then trim_start r else s
  | EmptyString => EmptyString
  end.

Fixpoint string_rev_onto (acc s : string) : string :=
  match s with
  | String c r => string_rev_onto (String c acc) r
  | EmptyString => acc
  end.

Definition string_rev (s : string) : string := string_rev_onto EmptyString s.

(** [s.trim()] *)
Definition trim (s : string) : string :=
  string_rev (trim_start (string_rev (trim_start s))).

Definition nonempty (s : string) : bool :=
  match s with EmptyString => false | _ => true end.

(** ** Values *)

(** A [FormData] entry value is a string or a [File]; of a file only the
    name is read. *)
Inductive FieldValue : Type :=
  | Text (s : string)
  | File (name : string).

Definition Entry : Type := string * FieldValue.

(** What a property read on the object built by [Object.fromEntries] can
    return: an entry value, or a member inherited from [Object.prototype]. *)
Inductive JSValue : Type :=
  | Own (v : FieldValue)
  | ObjectPrototype
  | NativeFunction (fname : string).

(** [String(value)].  The text of a built-in function is the one V8 prints. *)
Definition String_of (v : JSValue) : string :=
  match v with
  | Own (Text s) => s
  | Own (File _) => "[object File]"
  | ObjectPrototype => "[object Object]"
  | NativeFunction n => "function " +:+ n +:+ "() { [native code] }"
  end.

(** The properties every plain object inherits from [Object.prototype]. *)
Definition Object_prototype_methods : list string :=
  ["hasOwnProperty"; "isPrototypeOf"; "propertyIsEnumerable"; "toLocaleString";
   "toString"; "valueOf"; "__defineGetter__"; "__defineSetter__";
   "__lookupGetter__"; "__lookupSetter__"].

Definition Object_prototype (key : string) : option JSValue :=
  if String.eqb key "__proto__" then Some ObjectPrototype
  else if String.eqb key "constructor" then Some (NativeFunction "Object")
  else if bool_decide (key ∈ Object_prototype_methods) then Some (NativeFunction key)
  else None.

(** [Object.fromEntries(entries)]: a later entry overwrites an earlier one
    of the same key. *)
Definition fromEntries (entries : list Entry) : gmap string FieldValue :=
  foldl (fun o e => <[e.1 := e.2]> o) ∅ entries.

(** [key in obj] *)
Definition js_in (key : string) (obj : gmap string FieldValue) : bool :=
  bool_decide (is_Some (obj !! key)) || bool_decide (is_Some (Object_prototype key)).

(** [obj[key]], read only where [key in obj] holds. *)
Definition js_get (obj : gmap string FieldValue) (key : string) : option JSValue :=
  match obj !! key with
  | Some v => Some (Own v)
  | None => Object_prototype key
  end.

(** A formatter receives the value and the trimmed arguments of the format
    spec; [None] stands for a [null] or [undefined] result. *)
Definition Formatter : Type := JSValue -> list string -> option string.

(** ** The placeholder and format-spec matchers *)

(** The placeholder expression of [interpolate], anchored at a position
    whose opening brace has been consumed: a name (one [is_ident_start]
    character, then the longest run of [is_ident_char]), optionally a comma
    and a format spec (the longest run, at least one character, of anything
    but a closing brace), and a closing brace.  The result is the name, the
    format spec if there is one, the matched text and the text after it. *)
Definition match_placeholder (s : string)
  : option (string * option string * string * string) :=
  match s with
  | String c0 _ =>
      if is_ident_start c0 then
        let '(name, after_name) := span is_ident_char s in
        match after_name with
        | String "}"%char rest =>
            Some (name, None, String LBRACE name +:+ "}", rest)
        | String ","%char after_comma =>
            let '(fmt, after_fmt) := span (fun c => negb (Ascii.eqb c RBRACE)) after_comma in
            match fmt, after_fmt with
            | String _ _, String _ rest =>
                Some (name, Some fmt, String LBRACE name +:+ "," +:+ fmt +:+ "}", rest)
            | _, _ => None
            end
        | _ => None
        end
      else None
  | EmptyString => None
  end.

(** The expression of [formatValue] on a whole format spec: a formatter
    name (one or more [is_word] characters) and optionally, in parentheses
    that end the spec, the raw argument text (anything but a closing
    parenthesis). *)
Definition match_formatSpec (spec : string) : option (string * option string) :=
  let '(name, after_name) := span is_word spec in
  match name, after_name with
  | String _ _, EmptyString => Some (name, None)
  | String _ _, String "("%char after_paren =>
      let '(args, after_args) := span (fun c => negb (Ascii.eqb c ")")) after_paren in
      match after_args with
      | String _ EmptyString => Some (name, Some args)
      | _ => None
      end
  | _, _ => None
  end.

(** The test of [computeValue]: one or more [is_key_char] characters, an
    equals sign, and nothing but whitespace up to the end of the string. *)
Definition is_bare_assignment (s : string) : bool :=
  let '(key, after_key) := span is_key_char s in
  match key, after_key with
  | String _ _, String "="%char tail => string_forall is_space tail
  | _, _ => false
  end.

(** ** The document as the host presents it *)

(** A listed element of the form: its [name], its [for] attribute, and the
    request-header fieldsets (by node) that contain it. *)
Record Element : Type := {
  el_name : string;
  el_for : option string;
  el_within : list nat
}.

(** A [fieldset is="request-header"]: its node, its [id] (empty when there
    is none) and the [header] and [value] attributes. *)
Record RequestHeader : Type := {
  rh_node : nat;
  rh_id : string;
  rh_header_attr : option string;
  rh_value_attr : option string
}.

(** The submit control handed to [requestSubmit]. *)
Record Submitter : Type := {
  formMethod : string;
  has_formaction : bool;
  formAction : string;
  formEnctype : string;
  formNoValidate : bool;
  formTarget : string
}.

Record FormDOM : Type := {
  elements : list Element;
  request_headers : list RequestHeader;
  formData : option Submitter -> list Entry;
  method_attr : option string;
  action : string;
  enctype : string;
  target : string;
  noValidate : bool;
  checkValidity : bool;
  location_href : string
}.

(** [a || b] on strings: the empty string is falsy. *)
Definition or_else (a b : string) : string := if nonempty a then a else b.

(** [attr || ''] on the result of [getAttribute]. *)
Definition attr_or_empty (a : option string) : string :=
  match a with Some s => s | None => EmptyString end.

(** ** RequestHeader *)

Definition header (rh : RequestHeader) : string := attr_or_empty (rh_header_attr rh).

Definition template (rh : RequestHeader) : string := attr_or_empty (rh_value_attr rh).

Definition contains (rh : RequestHeader) (el : Element) : bool :=
  bool_decide (rh_node rh ∈ el_within el).

Definition for_is (rh : RequestHeader) (el : Element) : bool :=
  match el_for el with
  | Some target_id => String.eqb target_id (rh_id rh)
  | None => false
  end.

Definition inputs (dom : FormDOM) (rh : RequestHeader) : list Element :=
  filter (fun el => for_is rh el || contains rh el) (elements dom).

Definition values (dom : FormDOM) (submitter : option Submitter) (rh : RequestHeader)
  : gmap string FieldValue :=
  let names : gset string := list_to_set (el_name <$> inputs dom rh) in
  fromEntries (filter (fun e : Entry => bool_decide (e.1 ∈ names)) (formData dom submitter)).

Section Formatters.

(** [HTTPAwareForm.formatters]: the formatter found under a property name.
    The core registers none; they are supplied by the embedding page.  A
    format spec that names a member the registry object inherits from
    [Object.prototype] is outside the model. *)
Variable formatters : string -> option Formatter.

(** [formatValue].  When the format spec is absent or does not match, the
    registry is read at the property name of [undefined].  The values that
    reach it are never [null] or [undefined], so [value ?? ''] is [value]. *)
Definition formatValue (value : JSValue) (formatSpec : option string) : string :=
  let m := formatSpec ≫= match_formatSpec in
  let key := match m with Some (name, _) => name | None => "undefined" end in
  let args :=
    match m with
    | Some (_, Some raw) => trim <$> split_comma raw
    | _ => []
    end in
  match formatters key with
  | Some fn => match fn value args with Some out => out | None => String_of value end
  | None => String_of value
  end.

(** The second [replace] of [interpolate]: every placeholder, from left to
    right, is replaced by its formatted value when its name is [in] the
    values and by itself otherwise.  The fuel is the length of the text;
    every step consumes a character. *)
Fixpoint substitute_fuel (fuel : nat) (vals : gmap string FieldValue) (s : string) : string :=
  match fuel, s with
  | S fuel', String c r =>
      match (if Ascii.eqb c LBRACE then match_placeholder r else None) with
      | Some (name, fmt, matched, rest) =>
          (if js_in name vals
           then match js_get vals name with
                | Some v => formatValue v fmt
                | None => matched
                end
           else matched) +:+ substitute_fuel fuel' vals rest
      | None => String c (substitute_fuel fuel' vals r)
      end
  | _, _ => s
  end.

Definition substitute (vals : gmap string FieldValue) (s : string) : string :=
  substitute_fuel (String.length s) vals s.

Definition SENTINEL_OPEN : string := String NUL (String "O" (String NUL EmptyString)).
Definition SENTINEL_CLOSE : string := String NUL (String "C" (String NUL EmptyString)).

Definition protect (s : string) : string :=
  replace2 RBRACE RBRACE SENTINEL_CLOSE (replace2 LBRACE LBRACE SENTINEL_OPEN s).

Definition restore (s : string) : string :=
  replace3 NUL "C" NUL "}" (replace3 NUL "O" NUL "{" s).

Definition interpolate (tpl : string) (vals : gmap string FieldValue) : string :=
  restore (substitute vals (protect tpl)).

Definition computeValue (dom : FormDOM) (submitter : option Submitter) (rh : RequestHeader)
  : string :=
  let result := interpolate (template rh) (values dom submitter rh) in
  if nonempty result && negb (is_bare_assignment result) then result else EmptyString.

End Formatters.

(** The registry of the core: [static formatters = {}], an object without
    properties of its own. *)
Definition core_formatters : string -> option Formatter := fun _ => None.

(** ** HTTPAwareForm *)

Definition COMBINABLE_HEADERS : gset string :=
  list_to_set
    ["accept"; "accept-charset"; "accept-encoding"; "accept-language";
     "cache-control"; "connection"; "content-encoding"; "expect";
     "if-match"; "if-none-match"; "prefer"; "te"; "trailer";
     "transfer-encoding"; "upgrade"; "via"; "warning"; "link"].

Definition combinable (name : string) : bool :=
  bool_decide (name ∈ COMBINABLE_HEADERS).

(** A [Map] from header names to their segments, in insertion order:
    [set] on a key that is present keeps its position. *)
Definition HeaderMap : Type := list (string * list string).

Fixpoint map_get (k : string) (m : HeaderMap) : option (list string) :=
  match m with
  | [] => None
  | (k', v) :: rest => if String.eqb k' k then Some v else map_get k rest
  end.

Fixpoint map_set (k : string) (v : list string) (m : HeaderMap) : HeaderMap :=
  match m with
  | [] => [(k, v)]
  | (k', v') :: rest =>
      if String.eqb k' k then (k, v) :: rest else (k', v') :: map_set k v rest
  end.

(** The search component of the request URL: the one [new URL] parsed out
    of the action, or the parameters assigned to [url.search]. *)
Inductive Search : Type :=
  | ParsedSearch
  | AssignedSearch (params : list (string * string)).

Record URL : Type := {
  url_input : string;
  url_search : Search
}.

(** The four shapes [body] takes: [null], the string of [text/plain], a
    [URLSearchParams] and a [FormData]. *)
Inductive Body : Type :=
  | NoBody
  | PlainText (s : string)
  | UrlEncoded (params : list (string * string))
  | Multipart (fd : list Entry).

(** The arguments of [new Request]. *)
Record Request : Type := {
  req_url : URL;
  req_method : string;
  req_headers : list (string * string);
  req_body : Body;
  req_redirect : string
}.

(** [formData.delete(name)] *)
Definition fd_delete (name : string) (fd : list Entry) : list Entry :=
  filter (fun e : Entry => negb (String.eqb e.1 name)) fd.

(** [`${v}`] and [String(v)] on an entry value. *)
Definition text_of (v : FieldValue) : string := String_of (Own v).

Definition CRLF : string := String "013" (String "010" EmptyString).

Section Form.

Variable formatters : string -> option Formatter.

Definition collectHeaders_step (dom : FormDOM) (submitter : option Submitter)
    (headerMap : HeaderMap) (el : RequestHeader) : HeaderMap :=
  let name := toLowerCase (header el) in
  if negb (nonempty name) then headerMap
  else
    map_set name
      ((if combinable name then default [] (map_get name headerMap) else [])
         ++ [computeValue formatters dom submitter el])
      headerMap.

(** [collectHeaders].  The segments are strings, so of the filter
    [x || x === 0] only the test for the empty string can decide. *)
Definition collectHeaders (dom : FormDOM) (submitter : option Submitter)
  : list (string * string) :=
  (fun nv : string * list string => (nv.1, join ", " (filter (fun x => nonempty x) nv.2)))
    <$> foldl (collectHeaders_step dom submitter) [] (request_headers dom).

(** [getHeaderBoundFields]: the names, when not empty, of the inputs of
    every request-header fieldset. *)
Definition getHeaderBoundFields (dom : FormDOM) : gset string :=
  list_to_set
    (flat_map
       (fun el => flat_map (fun i => if nonempty (el_name i) then [el_name i] else [])
                           (inputs dom el))
       (request_headers dom)).

Definition collectFormData (dom : FormDOM) (submitter : option Submitter) : list Entry :=
  set_fold fd_delete (formData dom submitter) (getHeaderBoundFields dom).

(** The line a field contributes to a [text/plain] body. *)
Definition plain_line (e : Entry) : string := e.1 +:+ "=" +:+ text_of e.2.

Definition encodeBody (fd : list Entry) (enctype : string) : Body :=
  if String.eqb enctype "text/plain"
  then PlainText (join CRLF (plain_line <$> fd))
  else if String.eqb enctype "application/x-www-form-urlencoded"
  then UrlEncoded (flat_map (fun e : Entry => match e.2 with
                                              | Text s => [(e.1, s)]
                                              | File _ => []
                                              end) fd)
  else Multipart fd.

(** [v instanceof File ? v.name : v] *)
Definition query_value (v : FieldValue) : string :=
  match v with Text s => s | File name => name end.

(** The pair a field contributes to the query string. *)
Definition query_pair (e : Entry) : string * string := (e.1, query_value e.2).

Definition effective_method (dom : FormDOM) (submitter : option Submitter) : string :=
  toUpperCase
    (or_else (from_option formMethod EmptyString submitter)
       (or_else (attr_or_empty (method_attr dom)) "GET")).

Definition effective_action (dom : FormDOM) (submitter : option Submitter) : string :=
  or_else (match submitter with
           | Some s => if has_formaction s then formAction s else EmptyString
           | None => EmptyString
           end)
    (or_else (action dom) (location_href dom)).

Definition effective_enctype (dom : FormDOM) (submitter : option Submitter) : string :=
  or_else (from_option formEnctype EmptyString submitter)
    (or_else (enctype dom) "application/x-www-form-urlencoded").

Definition query_method (method : string) : bool :=
  bool_decide (method ∈ ["GET"; "HEAD"; "DELETE"]).

(** [buildRequest], up to the arguments of [new Request] in its last
    line. *)
Definition buildRequest (dom : FormDOM) (submitter : option Submitter) : Request :=
  let method := effective_method dom submitter in
  let headers := collectHeaders dom submitter in
  let formData := collectFormData dom submitter in
  let url := {| url_input := effective_action dom submitter; url_search := ParsedSearch |} in
  let '(url, body) :=
    if query_method method
    then ({| url_input := url_input url;
             url_search := AssignedSearch (query_pair <$> formData) |},
          NoBody)
    else (url, encodeBody formData (effective_enctype dom submitter)) in
  {| req_url := url; req_method := method; req_headers := headers;
     req_body := body; req_redirect := "follow" |}.

(** *** Submission *)

(** The element: the document it sits in and its two instance fields.
    [_submitter] starts out undefined and [preparedRequest] is [null]. *)
Record HTTPAwareForm : Type := {
  dom : FormDOM;
  _submitter : option Submitter;
  preparedRequest : option Request
}.

Definition connected (d : FormDOM) : HTTPAwareForm :=
  {| dom := d; _submitter := None; preparedRequest := None |}.

(** The submit event and a handler registered for it.  A handler reads the
    event and the form and answers whether it called [preventDefault]. *)
Record SubmitEvent : Type := {
  ev_submitter : option Submitter;
  _httpAware : bool
}.

Definition Listener : Type := SubmitEvent -> HTTPAwareForm -> bool.

(** The calls that leave the program, as they happen. *)
Inductive Effect : Type :=
  | ReportValidity
  | DispatchSubmit (ev : SubmitEvent) (seen : option Request)
  | Fetch (req : Request) (target : string).

(** [dispatchEvent]: false when a handler cancelled the event. *)
Definition dispatchEvent (listeners : list Listener) (ev : SubmitEvent)
    (this : HTTPAwareForm) : bool :=
  negb (existsb (fun l => l ev this) listeners).

Definition submit (this : HTTPAwareForm) : HTTPAwareForm * list Effect :=
  let request := buildRequest (dom this) (_submitter this) in
  let target := or_else (target (dom this)) "_self" in
  (this, [Fetch request target]).

Definition shouldValidate (d : FormDOM) (submitter : option Submitter) : bool :=
  negb (noValidate d || from_option formNoValidate false submitter).

(** [submitter?.formTarget || this.target || '_self'] *)
Definition submit_target (d : FormDOM) (submitter : option Submitter) : string :=
  or_else (from_option formTarget EmptyString submitter) (or_else (target d) "_self").

(** [requestSubmit].  The handlers only read the form, so [preparedRequest]
    still holds the request when [fetch] reads it back. *)
Definition requestSubmit (listeners : list Listener) (submitter : option Submitter)
    (this : HTTPAwareForm) : HTTPAwareForm * list Effect :=
  let this := {| dom := dom this; _submitter := submitter;
                 preparedRequest := preparedRequest this |} in
  if shouldValidate (dom this) submitter && negb (checkValidity (dom this))
  then (this, [ReportValidity])
  else
    let this := {| dom := dom this; _submitter := _submitter this;
                   preparedRequest := Some (buildRequest (dom this) (_submitter this)) |} in
    let target := submit_target (dom this) submitter in
    let event := {| ev_submitter := submitter; _httpAware := true |} in
    let dispatched := DispatchSubmit event (preparedRequest this) in
    let trace :=
      if dispatchEvent listeners event this
      then match preparedRequest this with
           | Some request => [dispatched; Fetch request target]
           | None => [dispatched]
           end
      else [dispatched] in
    ({| dom := dom this; _submitter := _submitter this; preparedRequest := None |}, trace).

(** [_handleNativeSubmit], the handler the form registers for itself: an
    event that does not carry [_httpAware] is cancelled and resubmitted. *)
Definition _handleNativeSubmit (listeners : list Listener) (event : SubmitEvent)
    (this : HTTPAwareForm) : bool * (HTTPAwareForm * list Effect) :=
  if negb (_httpAware event)
  then (true, requestSubmit listeners (ev_submitter event) this)
  else (false, (this, [])).

(** What can happen to a connected form: a script calls [submit] or
    [requestSubmit], the browser fires a native submit event, or the
    document changes between two submissions. *)
Inductive Call : Type :=
  | CallSubmit
  | CallRequestSubmit (listeners : list Listener) (submitter : option Submitter)
  | NativeSubmit (listeners : list Listener) (event : SubmitEvent)
  | DocumentChange (d : FormDOM).

Definition step (c : Call) (this : HTTPAwareForm) : HTTPAwareForm * list Effect :=
  match c with
  | CallSubmit => submit this
  | CallRequestSubmit listeners submitter => requestSubmit listeners submitter this
  | NativeSubmit listeners event => (_handleNativeSubmit listeners event this).2
  | DocumentChange d =>
      ({| dom := d; _submitter := _submitter this;
          preparedRequest := preparedRequest this |}, [])
  end.

Fixpoint run (calls : list Call) (this : HTTPAwareForm) : HTTPAwareForm * list Effect :=
  match calls with
  | [] => (this, [])
  | c :: rest =>
      let '(this', trace) := step c this in
      let '(this'', trace') := run rest this' in
      (this'', trace ++ trace')
  end.

End Form.

(** ** The [Request] constructor

    [buildRequest] ends in
    [new Request(url.href, { method, headers, body, redirect: 'follow' })].
    The constructor throws a [TypeError] instead of returning when the
    method is not a token or is one of [CONNECT], [TRACE] and [TRACK] in
    any letter case, when a header name is not a token, when a header
    value, with the whitespace at its two ends removed, holds NUL, LF or
    CR, and when a [GET] or [HEAD] request is given a body.  The exception
    leaves [buildRequest] and, with it, [submit] or [requestSubmit]: no
    event is dispatched after it and nothing is fetched.  The URL is taken
    to be one the constructor accepts. *)

Local Open Scope char_scope.

(** A character of an HTTP token. *)
Definition is_tchar (c : ascii) : bool :=
  is_lower c || is_upper c || is_digit c
  || existsb (Ascii.eqb c)
       ["!"; "#"; "$"; "%"; "&"; "'"; "*"; "+"; "-"; "."; "^"; "_"; "`"; "|"; "~"].

(** HTTP whitespace: TAB, LF, CR and SPACE. *)
Definition is_http_whitespace (c : ascii) : bool :=
  (c =? "009") || (c =? "010") || (c =? "013") || (c =? " ").

(** NUL and the HTTP newline characters. *)
Definition is_nul_or_newline (c : ascii) : bool :=
  (c =? NUL) || (c =? "010") || (c =? "013").

Local Close Scope char_scope.

Definition is_token (s : string) : bool := nonempty s && string_forall is_tchar s.

Definition forbidden_method (method : string) : bool :=
  bool_decide (toUpperCase method ∈ ["CONNECT"; "TRACE"; "TRACK"]).

Fixpoint strip_start (s : string) : string :=
  match s with
  | String c r => if is_http_whitespace c then strip_start r else s
  | EmptyString => EmptyString
  end.

(** A header value as the constructor normalizes it. *)
Definition strip (s : string) : string :=
  string_rev (strip_start (string_rev (strip_start s))).

Definition is_header_value (s : string) : bool :=
  string_forall (fun c => negb (is_nul_or_newline c)) s.

Definition has_body (b : Body) : bool :=
  match b with NoBody => false | _ => true end.

Definition new_Request_throws (args : Request) : bool :=
  negb (is_token (req_method args))
  || forbidden_method (req_method args)
  || existsb (fun nv : string * string =>
                negb (is_token nv.1) || negb (is_header_value (strip nv.2)))
             (req_headers args)
  || bool_decide (req_method args ∈ ["GET"; "HEAD"]) && has_body (req_body args).

(** [new Request]: the arguments, when the constructor makes a request of
    them, and nothing when it throws. *)
Definition new_Request (args : Request) : option Request :=
  if new_Request_throws args then None else Some args.

(** ** After the fetch *)

(** What [navigateWithResponse] reads of a response; [content_type] is
    [response.headers.get('content-type')] and [response_text] the text the
    body resolves to. *)
Record Response : Type := {
  status : nat;
  redirected : bool;
  content_type : option string;
  response_url : string;
  response_text : string
}.

(** What the element does to the browsing context and the console.
    [DocumentWrite true] writes into the document of a window opened for
    it, [DocumentWrite false] into the current document. *)
Inductive BrowsingEffect : Type :=
  | ConsoleWarn (method url : string)
  | DocumentWrite (new_window : bool) (html : string)
  | PushState (url : string)
  | WindowOpen (url : string)
  | LocationAssign (url : string)
  | HttpErrorEvent (error : string)
  | ConsoleError (error : string).

(** [s.includes(sub)] *)
Fixpoint includes (s sub : string) : bool :=
  String.prefix sub s
  || match s with
     | String _ r => includes r sub
     | EmptyString => false
     end.

(** [navigateWithResponse].  The window opened for [_blank] is taken to
    open, the body to resolve to its text and [history.pushState] to accept
    the URL of the response, so that the function does not throw. *)
Definition navigateWithResponse (response : Response) (method target : string)
  : list BrowsingEffect :=
  (if Nat.eqb (status response) 204
   then [ConsoleWarn method (response_url response)] else [])
  ++ (if negb (redirected response)
         && includes (attr_or_empty (content_type response)) "text/html"
      then DocumentWrite (String.eqb target "_blank") (response_text response)
           :: (if negb (String.eqb target "_blank")
               then [PushState (response_url response)] else [])
      else if String.eqb target "_blank"
      then [WindowOpen (response_url response)]
      else [LocationAssign (response_url response)]).

(** [handleError] *)
Definition handleError (error : string) : list BrowsingEffect :=
  [HttpErrorEvent error; ConsoleError error].

(** How the promise of [fetch] settles. *)
Inductive FetchOutcome : Type :=
  | Resolved (response : Response)
  | Rejected (error : string).

(** The [then] and [catch] that [submit] and [requestSubmit] attach to a
    fetch of [req] for [target].  The [catch] is reached by a rejected
    fetch only, [navigateWithResponse] being taken not to throw. *)
Definition settle (req : Request) (target : string) (outcome : FetchOutcome)
  : list BrowsingEffect :=
  match outcome with
  | Resolved response => navigateWithResponse response (req_method req) target
  | Rejected error => handleError error
  end.

(** ** The formatters of [http-aware-formatters.js] that work on text *)

Definition upper : Formatter := fun val _ => Some (toUpperCase (String_of val)).

Definition lower : Formatter := fun val _ => Some (toLowerCase (String_of val)).

(** * Vocabulary of the statements

    Definitions the properties are stated with; none of them is part of
    the program. *)

(** ** Headers *)

(** The elements of a list, each once, in the order of their first
    occurrence. *)
Fixpoint first_occurrences (l : list string) : list string :=
  match l with
  | [] => []
  | x :: r => x :: filter (fun y => y ≠ x) (first_occurrences r)
  end.

(** The key a declaration is filed under. *)
Definition decl_name (el : RequestHeader) : string := toLowerCase (header el).

(** The declarations filed under [n], in document order. *)
Definition declared (n : string) (ds : list RequestHeader) : list RequestHeader :=
  filter (fun d => decl_name d = n) ds.

(** The non-empty keys of the declarations, in document order. *)
Definition declared_names (ds : list RequestHeader) : list string :=
  filter (fun n => nonempty n) (decl_name <$> ds).

Section HeaderSpec.

Context (formatters : string -> option Formatter) (dom : FormDOM)
        (submitter : option Submitter).

(** What the map holds for [n] after the declarations [ds]: every computed
    value for a combinable name, the last one otherwise. *)
Definition segments (n : string) (ds : list RequestHeader) : list string :=
  let vs := computeValue formatters dom submitter <$> declared n ds in
  if combinable n then vs else option_list (last vs).

(** The map [collectHeaders] has built after the declarations [ds]. *)
Definition header_map (ds : list RequestHeader) : HeaderMap :=
  foldl (collectHeaders_step formatters dom submitter) [] ds.

End HeaderSpec.

(** The value emitted for a list of segments. *)
Definition emitted (segs : list string) : string :=
  join ", " (filter (fun x => nonempty x) segs).

(** ** Routing *)

(** The free fields: the entries whose name no declaration has bound. *)
Definition free_fields (dom : FormDOM) (submitter : option Submitter) : list Entry :=
  filter (fun e : Entry => e.1 ∉ getHeaderBoundFields dom) (formData dom submitter).

(** What it means for a body to carry a field: a line of the text, a
    parameter with the text value, or the entry itself. *)
Definition carried_by (b : Body) (e : Entry) : Prop :=
  match b with
  | NoBody => False
  | PlainText s =>
      ∃ before after, s = join CRLF (plain_line <$> before ++ e :: after)
  | UrlEncoded params => ∃ s, e.2 = Text s ∧ (e.1, s) ∈ params
  | Multipart fd => e ∈ fd
  end.






(** ** Submission *)

(** The two kinds of effect a cancelled or invalid submission must not
    have. *)
Definition is_dispatch (e : Effect) : bool :=
  match e with DispatchSubmit _ _ => true | _ => false end.

Definition is_fetch (e : Effect) : bool :=
  match e with Fetch _ _ => true | _ => false end.


(** The event [requestSubmit] dispatches. *)
Definition http_aware_event (submitter : option Submitter) : SubmitEvent :=
  {| ev_submitter := submitter; _httpAware := true |}.

(** ** Plain text *)

(** A character that is neither a brace nor NUL. *)
Definition plain (c : ascii) : bool :=
  negb (Ascii.eqb c LBRACE) && negb (Ascii.eqb c RBRACE) && negb (Ascii.eqb c NUL).

(** A character other than [a]. *)
Definition differs (a c : ascii) : bool := negb (Ascii.eqb c a).

(** * Sample documents *)

(** Two [Prefer] declarations, the first linked by [for], the second by
    containment, a free field [q] and two [X-Trace] declarations. *)
Definition prefer_view : RequestHeader :=
  {| rh_node := 1; rh_id := "view-pref";
     rh_header_attr := Some "Prefer"; rh_value_attr := Some "view={view}" |}.

Definition prefer_wait : RequestHeader :=
  {| rh_node := 2; rh_id := "";
     rh_header_attr := Some "prefer"; rh_value_attr := Some "wait={timeout}" |}.

Definition trace_first : RequestHeader :=
  {| rh_node := 3; rh_id := "";
     rh_header_attr := Some "X-Trace"; rh_value_attr := Some "{first}" |}.

Definition trace_second : RequestHeader :=
  {| rh_node := 4; rh_id := "";
     rh_header_attr := Some "x-trace"; rh_value_attr := Some "{second}" |}.

(** A declaration whose template names a member of [Object.prototype]. *)
Definition debug_header : RequestHeader :=
  {| rh_node := 5; rh_id := "";
     rh_header_attr := Some "X-Debug"; rh_value_attr := Some "{constructor}" |}.

Definition sample_entries : list Entry :=
  [("view", Text "list"); ("timeout", Text "30"); ("first", Text "aaa");
   ("second", Text "bbb"); ("q", Text "rocq"); ("upload", File "report.pdf")].

Definition sample_dom : FormDOM :=
  {| elements :=
       [ {| el_name := "view"; el_for := Some "view-pref"; el_within := [] |};
         {| el_name := ""; el_for := None; el_within := [2] |};
         {| el_name := "timeout"; el_for := None; el_within := [2] |};
         {| el_name := "first"; el_for := None; el_within := [3] |};
         {| el_name := "second"; el_for := None; el_within := [4] |};
         {| el_name := "q"; el_for := None; el_within := [] |};
         {| el_name := "upload"; el_for := None; el_within := [] |} ];
     request_headers := [prefer_view; trace_first; prefer_wait; trace_second];
     formData := fun _ => sample_entries;
     method_attr := Some "get";
     action := "https://example.test/items?old=1";
     enctype := "application/x-www-form-urlencoded";
     target := "";
     noValidate := false;
     checkValidity := true;
     location_href := "https://example.test/" |}.

(** The sample document submitted with [POST]. *)
Definition upload_dom : FormDOM :=
  {| elements := elements sample_dom;
     request_headers := request_headers sample_dom;
     formData := formData sample_dom;
     method_attr := Some "post";
     action := action sample_dom;
     enctype := enctype sample_dom;
     target := target sample_dom;
     noValidate := noValidate sample_dom;
     checkValidity := checkValidity sample_dom;
     location_href := location_href sample_dom |}.

Definition invalid_dom : FormDOM :=
  {| elements := elements sample_dom;
     request_headers := request_headers sample_dom;
     formData := formData sample_dom;
     method_attr := method_attr sample_dom;
     action := action sample_dom;
     enctype := enctype sample_dom;
     target := target sample_dom;
     noValidate := false;
     checkValidity := false;
     location_href := location_href sample_dom |}.




(** A handler that cancels every submit event, and one that cancels none. *)
Definition cancelling : Listener := fun _ _ => true.
Definition observing : Listener := fun _ _ => false.

(** * Vocabulary of the further properties *)

(** An identifier of the placeholder grammar. *)
Definition is_identifier (s : string) : bool :=
  match s with
  | String c r => is_ident_start c && string_forall is_ident_char r
  | EmptyString => false
  end.

(** The text of a placeholder, with or without format spec. *)
Definition placeholder (name : string) (fmt : option string) : string :=
  "{" +:+ name +:+ match fmt with Some f => "," +:+ f | None => "" end +:+ "}".

(** A format spec the placeholder expression accepts and the escapes leave
    alone: not empty, no brace, no NUL. *)
Definition plain_spec (fmt : option string) : bool :=
  match fmt with
  | Some f => nonempty f && string_forall plain f
  | None => true
  end.

(** What the placeholder expression puts in place of a placeholder. *)
Definition replacement (formatters : string -> option Formatter)
    (vals : gmap string FieldValue) (name : string) (fmt : option string) : string :=
  if js_in name vals
  then match js_get vals name with
       | Some v => formatValue formatters v fmt
       | None => placeholder name fmt
       end
  else placeholder name fmt.

(** The document with another list of request-header fieldsets. *)
Definition with_request_headers (d : FormDOM) (ds : list RequestHeader) : FormDOM :=
  {| elements := elements d;
     request_headers := ds;
     formData := formData d;
     method_attr := method_attr d;
     action := action d;
     enctype := enctype d;
     target := target d;
     noValidate := noValidate d;
     checkValidity := checkValidity d;
     location_href := location_href d |}.

(** The effects that change what the browsing context shows. *)
Definition is_navigation (e : BrowsingEffect) : bool :=
  match e with
  | DocumentWrite _ _ | WindowOpen _ | LocationAssign _ => true
  | _ => false
  end.

Definition is_write (e : BrowsingEffect) : bool :=
  match e with DocumentWrite _ _ => true | _ => false end.

(** The form's own handler as one of the handlers of the submit event: on
    an event that carries [_httpAware] it does nothing. *)
Definition own_handler : Listener := fun ev _ => negb (_httpAware ev).

(** * Samples for the further properties *)

(** A formatter that shows the arguments it was called with. *)
Definition echo_args : Formatter := fun _ args => Some (join "|" args).

Definition echo_registry (key : string) : option Formatter :=
  if String.eqb key "pad" then Some echo_args else None.

(** A registry that holds the two text formatters. *)
Definition text_registry (key : string) : option Formatter :=
  if String.eqb key "lower" then Some lower
  else if String.eqb key "upper" then Some upper
  else None.

(** A declaration of the form [key={name}] and a document whose field
    [page] is blank. *)
Definition range_header : RequestHeader :=
  {| rh_node := 7; rh_id := "";
     rh_header_attr := Some "Range"; rh_value_attr := Some "pages={page}" |}.

Definition blank_dom : FormDOM :=
  {| elements := [ {| el_name := "page"; el_for := None; el_within := [7] |};
                   {| el_name := "tag"; el_for := None; el_within := [] |} ];
     request_headers := [range_header];
     formData := fun _ => [("page", Text "1"); ("tag", Text "a"); ("page", Text "  ");
                           ("tag", Text "b")];
     method_attr := None;
     action := "https://example.test/list";
     enctype := "";
     target := "_top";
     noValidate := true;
     checkValidity := false;
     location_href := "https://example.test/" |}.

(** Three [Accept] declarations, the second of which has no template, and
    a fieldset without header name that contains the field [secret]. *)
Definition accept_html : RequestHeader :=
  {| rh_node := 10; rh_id := "";
     rh_header_attr := Some "Accept"; rh_value_attr := Some "text/html" |}.

Definition accept_nothing : RequestHeader :=
  {| rh_node := 11; rh_id := "";
     rh_header_attr := Some "ACCEPT"; rh_value_attr := None |}.

Definition accept_json : RequestHeader :=
  {| rh_node := 12; rh_id := "";
     rh_header_attr := Some "accept"; rh_value_attr := Some "application/json" |}.

Definition nameless_header : RequestHeader :=
  {| rh_node := 13; rh_id := "";
     rh_header_attr := None; rh_value_attr := Some "{secret}" |}.

Definition accept_dom : FormDOM :=
  {| elements := [ {| el_name := "secret"; el_for := None; el_within := [13] |};
                   {| el_name := "q"; el_for := None; el_within := [] |} ];
     request_headers := [accept_html; nameless_header; accept_nothing; accept_json];
     formData := fun _ => [("secret", Text "s3"); ("q", Text "rocq")];
     method_attr := Some "Delete";
     action := "";
     enctype := "";
     target := "";
     noValidate := false;
     checkValidity := true;
     location_href := "https://example.test/here" |}.

(** A submit button that posts into a new window. *)
Definition post_button : Submitter :=
  {| formMethod := "post"; has_formaction := false; formAction := "";
     formEnctype := ""; formNoValidate := false; formTarget := "_blank" |}.

(** A submit button that overrides nothing. *)
Definition plain_button : Submitter :=
  {| formMethod := ""; has_formaction := false;
     formAction := "https://example.test/here";
     formEnctype := ""; formNoValidate := false; formTarget := "" |}.

(** An HTML page answered with [404], and a redirected response. *)
Definition not_found_page : Response :=
  {| status := 404; redirected := false;
     content_type := Some "text/html; charset=utf-8";
     response_url := "https://example.test/items/9";
     response_text := "<h1>Not found</h1>" |}.

Definition redirected_page : Response :=
  {| status := 200; redirected := true;
     content_type := Some "text/html";
     response_url := "https://example.test/login";
     response_text := "<h1>Login</h1>" |}.

(** A document in which the field [q] carries an empty [for] attribute. *)
Definition empty_for_dom : FormDOM :=
  {| elements := [ {| el_name := "q"; el_for := Some ""; el_within := [] |} ];
     request_headers := [accept_html];
     formData := fun _ => [("q", Text "rocq")];
     method_attr := None;
     action := "";
     enctype := "";
     target := "";
     noValidate := false;
     checkValidity := true;
     location_href := "https://example.test/here" |}.

(** * Properties *)

(** ** The samples, evaluated *)

Example interpolate_escaped :
  interpolate core_formatters "{{x}}" (fromEntries [("x", Text "v")]) = "{x}".
Proof. vm_compute. reflexivity. Qed.

Example interpolate_range :
  interpolate core_formatters "pages={page}@{per}"
    (fromEntries [("page", Text "1"); ("per", Text "25")]) = "pages=1@25".
Proof. vm_compute. reflexivity. Qed.

Example interpolate_missing :
  interpolate core_formatters "pages={missing}" (fromEntries []) = "pages={missing}".
Proof. vm_compute. reflexivity. Qed.

Example interpolate_proto :
  interpolate core_formatters "{__proto__}" (fromEntries []) = "[object Object]".
Proof. vm_compute. reflexivity. Qed.

Example interpolate_fmt_escape :
  interpolate core_formatters "{x,a}}b}" (fromEntries [("x", Text "v")]) = "v".
Proof. vm_compute. reflexivity. Qed.

Example sample_headers :
  collectHeaders core_formatters sample_dom None =
  [("prefer", "view=list, wait=30"); ("x-trace", "bbb")].
Proof. vm_compute. reflexivity. Qed.

Example sample_request :
  buildRequest core_formatters sample_dom None =
  {| req_url := {| url_input := "https://example.test/items?old=1";
                   url_search := AssignedSearch [("q", "rocq"); ("upload", "report.pdf")] |};
     req_method := "GET";
     req_headers := [("prefer", "view=list, wait=30"); ("x-trace", "bbb")];
     req_body := NoBody;
     req_redirect := "follow" |}.
Proof. vm_compute. reflexivity. Qed.

(** ** Lists and strings *)

Lemma filter_none {A} (P : A → Prop) `{!∀ x, Decision (P x)} (l : list A) :
  (∀ x, x ∈ l → ¬ P x) → filter P l = [].
Proof.
  induction l as [|x l IH]; intros Hl; [done|].
  rewrite filter_cons_False by (apply Hl; left).
  apply IH. intros y Hy. apply Hl. by right.
Qed.

Lemma filter_all {A} (P : A → Prop) `{!∀ x, Decision (P x)} (l : list A) :
  (∀ x, x ∈ l → P x) → filter P l = l.
Proof.
  induction l as [|x l IH]; intros Hl; [done|].
  rewrite filter_cons_True by (apply Hl; left).
  f_equal. apply IH. intros y Hy. apply Hl. by right.
Qed.

Lemma nonempty_true s : nonempty s ↔ s ≠ EmptyString.
Proof. destruct s; simpl; split; done. Qed.

Lemma append_nil_l (s : string) : "" +:+ s = s.
Proof. reflexivity. Qed.

Lemma append_cons (c : ascii) (s1 s2 : string) : String c s1 +:+ s2 = String c (s1 +:+ s2).
Proof. reflexivity. Qed.

Lemma append_assoc (s1 s2 s3 : string) : (s1 +:+ s2) +:+ s3 = s1 +:+ s2 +:+ s3.
Proof.
  induction s1 as [|c s1 IH]; rewrite ?append_nil_l, ?append_cons; [done|]. by f_equal.
Qed.

Lemma append_empty_r (s : string) : s +:+ "" = s.
Proof.
  induction s as [|c s IH]; rewrite ?append_nil_l, ?append_cons; [done|]. by f_equal.
Qed.

Lemma length_append (s1 s2 : string) :
  String.length (s1 +:+ s2) = String.length s1 + String.length s2.
Proof.
  induction s1 as [|c s1 IH]; rewrite ?append_nil_l, ?append_cons; [done|].
  cbn [String.length]. by rewrite IH.
Qed.

Lemma string_forall_append p s1 s2 :
  string_forall p (s1 +:+ s2) = string_forall p s1 && string_forall p s2.
Proof.
  induction s1 as [|c s1 IH]; rewrite ?append_nil_l, ?append_cons; [done|].
  cbn [string_forall]. rewrite IH. by rewrite andb_assoc.
Qed.

Lemma string_forall_impl (p q : ascii → bool) s :
  (∀ c, p c = true → q c = true) → string_forall p s = true → string_forall q s = true.
Proof.
  intros Hpq. induction s as [|c s IH]; simpl; [done|].
  intros [Hc Hs]%andb_true_iff. by rewrite (Hpq c Hc), IH.
Qed.

Lemma plain_differs a :
  a = LBRACE ∨ a = RBRACE ∨ a = NUL → ∀ c, plain c = true → differs a c = true.
Proof.
  unfold plain, differs. intros Ha c [[H1 H2]%andb_true_iff H3]%andb_true_iff.
  by destruct Ha as [-> | [-> | ->]].
Qed.

Lemma differs_ne a c : differs a c = true → c ≠ a.
Proof. unfold differs. by destruct (Ascii.eqb_spec c a). Qed.

Lemma plain_no_lbrace s :
  string_forall plain s = true → string_forall (differs LBRACE) s = true.
Proof. apply string_forall_impl, plain_differs. by left. Qed.

Lemma plain_no_rbrace s :
  string_forall plain s = true → string_forall (differs RBRACE) s = true.
Proof. apply string_forall_impl, plain_differs. right. by left. Qed.

Lemma plain_no_nul s :
  string_forall plain s = true → string_forall (differs NUL) s = true.
Proof. apply string_forall_impl, plain_differs. right. by right. Qed.

Lemma span_all p s rest :
  string_forall p s = true →
  match rest with String c _ => p c = false | EmptyString => True end →
  span p (s +:+ rest) = (s, rest).
Proof.
  intros Hs Hrest. induction s as [|c s IH]; rewrite ?append_nil_l, ?append_cons.
  - destruct rest as [|c r]; [done|]. simpl. by rewrite Hrest.
  - cbn [string_forall span] in *. apply andb_true_iff in Hs as [Hc Hs].
    by rewrite Hc, IH.
Qed.

Lemma is_ident_start_char c : is_ident_start c = true → is_ident_char c = true.
Proof.
  unfold is_ident_start, is_ident_char.
  destruct (is_lower c), (is_upper c), (is_digit c), (Ascii.eqb c "_"); done.
Qed.

Lemma ident_char_plain c : is_ident_char c = true → plain c = true.
Proof.
  destruct c as [[] [] [] [] [] [] [] []]; vm_compute; intros H; try done.
Qed.

(** ** The literal replacements *)

Lemma replace2_cons_ne a b rep c t :
  c ≠ a → replace2 a b rep (String c t) = String c (replace2 a b rep t).
Proof.
  intros Hne. destruct t as [|c2 r]; simpl; [done|].
  by destruct (Ascii.eqb_spec c a).
Qed.

Lemma replace2_hit a b rep r :
  replace2 a b rep (String a (String b r)) = rep +:+ replace2 a b rep r.
Proof. simpl. by rewrite !Ascii.eqb_refl. Qed.

Lemma replace2_miss a b rep c1 c2 r :
  Ascii.eqb c1 a && Ascii.eqb c2 b = false →
  replace2 a b rep (String c1 (String c2 r)) = String c1 (replace2 a b rep (String c2 r)).
Proof.
  intros Hmiss.
  change (replace2 a b rep (String c1 (String c2 r)))
    with (if Ascii.eqb c1 a && Ascii.eqb c2 b
          then rep +:+ replace2 a b rep r
          else String c1 (replace2 a b rep (String c2 r))).
  by rewrite Hmiss.
Qed.

Lemma replace2_skip a b rep pre rest :
  string_forall (differs a) pre = true →
  replace2 a b rep (pre +:+ rest) = pre +:+ replace2 a b rep rest.
Proof.
  induction pre as [|c pre IH]; [done|]. rewrite append_cons. cbn [string_forall].
  intros [Hc Hpre]%andb_true_iff.
  rewrite replace2_cons_ne, IH; [done..|].
  unfold differs in Hc. by destruct (Ascii.eqb_spec c a).
Qed.

Lemma replace2_none a b rep s :
  string_forall (differs a) s = true → replace2 a b rep s = s.
Proof.
  intros Hs. rewrite <- (append_empty_r s) at 1.
  rewrite replace2_skip by done. simpl. apply append_empty_r.
Qed.

(** A single brace followed by plain text opens no escape, and neither
    does one followed by nothing. *)
Lemma replace2_single a rep s :
  string_forall (differs a) s = true →
  replace2 a a rep (String a s) = String a s.
Proof.
  intros Hs. destruct s as [|c r]; [done|].
  cbn [string_forall] in Hs. apply andb_true_iff in Hs as [Hc Hr].
  rewrite replace2_miss.
  - f_equal. apply replace2_none. cbn [string_forall]. by rewrite Hc, Hr.
  - unfold differs in Hc. destruct (Ascii.eqb c a); [done|]. by rewrite andb_false_r.
Qed.

Lemma replace3_cons_ne a b c rep c1 t :
  c1 ≠ a → replace3 a b c rep (String c1 t) = String c1 (replace3 a b c rep t).
Proof.
  intros Hne. destruct t as [|c2 [|c3 r]]; simpl; try done.
  by destruct (Ascii.eqb_spec c1 a).
Qed.

Lemma replace3_hit a b c rep r :
  replace3 a b c rep (String a (String b (String c r))) = rep +:+ replace3 a b c rep r.
Proof. simpl. by rewrite !Ascii.eqb_refl. Qed.

Lemma replace3_miss a b c rep c1 c2 c3 r :
  Ascii.eqb c1 a && Ascii.eqb c2 b && Ascii.eqb c3 c = false →
  replace3 a b c rep (String c1 (String c2 (String c3 r)))
  = String c1 (replace3 a b c rep (String c2 (String c3 r))).
Proof.
  intros Hmiss.
  change (replace3 a b c rep (String c1 (String c2 (String c3 r))))
    with (if Ascii.eqb c1 a && Ascii.eqb c2 b && Ascii.eqb c3 c
          then rep +:+ replace3 a b c rep r
          else String c1 (replace3 a b c rep (String c2 (String c3 r)))).
  by rewrite Hmiss.
Qed.

Lemma replace3_skip a b c rep pre rest :
  string_forall (differs a) pre = true →
  replace3 a b c rep (pre +:+ rest) = pre +:+ replace3 a b c rep rest.
Proof.
  induction pre as [|c1 pre IH]; [done|]. rewrite append_cons. cbn [string_forall].
  intros [Hc Hpre]%andb_true_iff.
  rewrite replace3_cons_ne, IH; [done..|].
  unfold differs in Hc. by destruct (Ascii.eqb_spec c1 a).
Qed.

Lemma replace3_none a b c rep s :
  string_forall (differs a) s = true → replace3 a b c rep s = s.
Proof.
  intros Hs. rewrite <- (append_empty_r s) at 1.
  rewrite replace3_skip by done. simpl. apply append_empty_r.
Qed.

(** A sentinel for the other brace, followed by text without NUL, is not
    touched by a restoring pass. *)
Lemma replace3_other_sentinel b b' rep post :
  b' ≠ b → b' ≠ NUL → string_forall (differs NUL) post = true →
  replace3 NUL b NUL rep (String NUL (String b' (String NUL post)))
  = String NUL (String b' (String NUL post)).
Proof.
  intros Hb Hnul Hpost.
  rewrite replace3_miss by (by destruct (Ascii.eqb_spec b' b)).
  f_equal. rewrite replace3_cons_ne by done. f_equal.
  destruct post as [|p [|q r]].
  - reflexivity.
  - change (replace3 NUL b NUL rep (String NUL (String p "")))
      with (String NUL (replace3 NUL b NUL rep (String p ""))).
    by rewrite replace3_none.
  - assert (Hq : Ascii.eqb q NUL = false).
    { cbn [string_forall] in Hpost.
      apply andb_true_iff in Hpost as [_ [Hq _]%andb_true_iff].
      unfold differs in Hq. by destruct (Ascii.eqb q NUL). }
    rewrite replace3_miss by (by rewrite Hq, andb_false_r).
    by rewrite replace3_none.
Qed.

(** ** Interpolation *)

Lemma substitute_fuel_none formatters vals fuel s :
  string_forall (differs LBRACE) s = true →
  substitute_fuel formatters fuel vals s = s.
Proof.
  revert fuel. induction s as [|c s IH]; intros fuel Hs; [by destruct fuel|].
  destruct fuel as [|fuel]; [done|]. cbn [string_forall] in Hs.
  apply andb_true_iff in Hs as [Hc Hs]. cbn [substitute_fuel].
  unfold differs in Hc. destruct (Ascii.eqb c LBRACE); [done|]. by rewrite IH.
Qed.

Lemma substitute_fuel_skip formatters vals pre fuel rest :
  string_forall (differs LBRACE) pre = true →
  substitute_fuel formatters (String.length pre + fuel) vals (pre +:+ rest)
  = pre +:+ substitute_fuel formatters fuel vals rest.
Proof.
  induction pre as [|c pre IH]; [done|]. cbn [string_forall String.length].
  intros [Hc Hpre]%andb_true_iff. rewrite !append_cons. cbn [Nat.add substitute_fuel].
  unfold differs in Hc. destruct (Ascii.eqb c LBRACE); [done|]. by rewrite IH.
Qed.

Lemma substitute_fuel_placeholder formatters vals fuel r :
  substitute_fuel formatters (S fuel) vals (String LBRACE r)
  = match match_placeholder r with
    | Some (name, fmt, matched, rest) =>
        (if js_in name vals
         then match js_get vals name with
              | Some v => formatValue formatters v fmt
              | None => matched
              end
         else matched) +:+ substitute_fuel formatters fuel vals rest
    | None => String LBRACE (substitute_fuel formatters fuel vals r)
    end.
Proof. reflexivity. Qed.

(** A well-formed placeholder without format spec is matched as such. *)
Lemma match_placeholder_name c0 name' post :
  is_ident_start c0 = true → string_forall is_ident_char name' = true →
  match_placeholder (String c0 name' +:+ "}" +:+ post)
  = Some (String c0 name', None, String LBRACE (String c0 name') +:+ "}", post).
Proof.
  intros Hc0 Hname. unfold match_placeholder. rewrite append_cons, Hc0, <- append_cons.
  rewrite (span_all is_ident_char (String c0 name') ("}" +:+ post)); [done| |done].
  cbn [string_forall]. by rewrite (is_ident_start_char _ Hc0), Hname.
Qed.

Lemma protect_escaped pre s post :
  string_forall plain pre = true → string_forall plain s = true →
  string_forall plain post = true →
  protect (pre +:+ "{{" +:+ s +:+ "}}" +:+ post)
  = pre +:+ SENTINEL_OPEN +:+ s +:+ SENTINEL_CLOSE +:+ post.
Proof.
  intros Hpre Hs Hpost. unfold protect.
  assert (Hopen : replace2 LBRACE LBRACE SENTINEL_OPEN
                    (pre +:+ "{{" +:+ s +:+ "}}" +:+ post)
                  = pre +:+ SENTINEL_OPEN +:+ s +:+ "}}" +:+ post).
  { rewrite (replace2_skip LBRACE LBRACE _ pre) by by apply plain_no_lbrace.
    change ("{{" +:+ s +:+ "}}" +:+ post)
      with (String LBRACE (String LBRACE (s +:+ "}}" +:+ post))).
    rewrite replace2_hit, (replace2_none LBRACE); [done|].
    rewrite !string_forall_append, (plain_no_lbrace s Hs), (plain_no_lbrace post Hpost).
    reflexivity. }
  rewrite Hopen.
  rewrite (replace2_skip RBRACE RBRACE _ pre) by by apply plain_no_rbrace.
  rewrite (replace2_skip RBRACE RBRACE _ SENTINEL_OPEN) by reflexivity.
  rewrite (replace2_skip RBRACE RBRACE _ s) by by apply plain_no_rbrace.
  change ("}}" +:+ post) with (String RBRACE (String RBRACE post)).
  by rewrite replace2_hit, replace2_none by by apply plain_no_rbrace.
Qed.

Lemma restore_escaped pre s post :
  string_forall plain pre = true → string_forall plain s = true →
  string_forall plain post = true →
  restore (pre +:+ SENTINEL_OPEN +:+ s +:+ SENTINEL_CLOSE +:+ post)
  = pre +:+ "{" +:+ s +:+ "}" +:+ post.
Proof.
  intros Hpre Hs Hpost. unfold restore.
  assert (Hopen : replace3 NUL "O" NUL "{"
                    (pre +:+ SENTINEL_OPEN +:+ s +:+ SENTINEL_CLOSE +:+ post)
                  = pre +:+ "{" +:+ s +:+ SENTINEL_CLOSE +:+ post).
  { rewrite (replace3_skip NUL "O" NUL "{" pre) by by apply plain_no_nul.
    change (SENTINEL_OPEN +:+ s +:+ SENTINEL_CLOSE +:+ post)
      with (String NUL (String "O" (String NUL (s +:+ SENTINEL_CLOSE +:+ post)))).
    rewrite replace3_hit, (replace3_skip NUL "O" NUL "{" s) by by apply plain_no_nul.
    change (SENTINEL_CLOSE +:+ post) with (String NUL (String "C" (String NUL post))).
    by rewrite replace3_other_sentinel by (done || by apply plain_no_nul). }
  rewrite Hopen.
  rewrite (replace3_skip NUL "C" NUL "}" pre) by by apply plain_no_nul.
  rewrite (replace3_skip NUL "C" NUL "}" "{") by reflexivity.
  rewrite (replace3_skip NUL "C" NUL "}" s) by by apply plain_no_nul.
  change (SENTINEL_CLOSE +:+ post) with (String NUL (String "C" (String NUL post))).
  by rewrite replace3_hit, replace3_none by by apply plain_no_nul.
Qed.

(** Escaped text: around and between one pair of doubled braces, text
    without braces and without NUL comes back with single braces, whatever
    the values hold. *)
Lemma escaped_text_restored formatters vals pre s post :
  string_forall plain pre = true → string_forall plain s = true →
  string_forall plain post = true →
  interpolate formatters (pre +:+ "{{" +:+ s +:+ "}}" +:+ post) vals
  = pre +:+ "{" +:+ s +:+ "}" +:+ post.
Proof.
  intros Hpre Hs Hpost. unfold interpolate, substitute.
  rewrite protect_escaped by done.
  rewrite substitute_fuel_none; [by apply restore_escaped|].
  rewrite !string_forall_append, (plain_no_lbrace pre Hpre), (plain_no_lbrace s Hs),
    (plain_no_lbrace post Hpost). reflexivity.
Qed.

(** Missing variable: in a template of plain text around one placeholder
    without format spec, a name that is neither a key of the values nor
    inherited from [Object.prototype] leaves the template as it is. *)
Lemma missing_placeholder_verbatim formatters vals pre c0 name' post :
  string_forall plain pre = true → string_forall plain post = true →
  is_ident_start c0 = true → string_forall is_ident_char name' = true →
  vals !! String c0 name' = None → Object_prototype (String c0 name') = None →
  interpolate formatters (pre +:+ "{" +:+ String c0 name' +:+ "}" +:+ post) vals
  = pre +:+ "{" +:+ String c0 name' +:+ "}" +:+ post.
Proof.
  intros Hpre Hpost Hc0 Hname' Hown Hproto.
  set (name := String c0 name').
  assert (Hname : string_forall plain name = true).
  { apply (string_forall_impl is_ident_char); [apply ident_char_plain|].
    unfold name. cbn [string_forall]. by rewrite (is_ident_start_char _ Hc0), Hname'. }
  assert (Hprotect : protect (pre +:+ "{" +:+ name +:+ "}" +:+ post)
                     = pre +:+ "{" +:+ name +:+ "}" +:+ post).
  { unfold protect.
    rewrite (replace2_skip LBRACE LBRACE _ pre) by by apply plain_no_lbrace.
    change ("{" +:+ name +:+ "}" +:+ post) with (String LBRACE (name +:+ "}" +:+ post)).
    rewrite (replace2_single LBRACE).
    2:{ by rewrite !string_forall_append, (plain_no_lbrace name Hname),
          (plain_no_lbrace post Hpost). }
    rewrite (replace2_skip RBRACE RBRACE _ pre) by by apply plain_no_rbrace.
    rewrite (replace2_skip RBRACE RBRACE _ "{" (name +:+ "}" +:+ post)) by reflexivity.
    rewrite (replace2_skip RBRACE RBRACE _ name) by by apply plain_no_rbrace.
    change ("}" +:+ post) with (String RBRACE post).
    by rewrite (replace2_single RBRACE) by by apply plain_no_rbrace. }
  unfold interpolate, substitute. rewrite Hprotect.
  assert (Hsubst : substitute_fuel formatters
                     (String.length (pre +:+ "{" +:+ name +:+ "}" +:+ post)) vals
                     (pre +:+ "{" +:+ name +:+ "}" +:+ post)
                   = pre +:+ "{" +:+ name +:+ "}" +:+ post).
  { rewrite length_append.
    change ("{" +:+ name +:+ "}" +:+ post) with (String LBRACE (name +:+ "}" +:+ post)).
    cbn [String.length]. rewrite substitute_fuel_skip by by apply plain_no_lbrace.
    rewrite substitute_fuel_placeholder. unfold name at 1.
    rewrite match_placeholder_name by done. fold name.
    replace (js_in name vals) with false.
    2:{ unfold js_in. subst name. by rewrite Hown, Hproto. }
    rewrite substitute_fuel_none by by apply plain_no_lbrace.
    f_equal. change (String LBRACE ?x) with ("{" +:+ x). by rewrite !append_assoc. }
  rewrite Hsubst. unfold restore.
  assert (Hnul : string_forall (differs NUL) (pre +:+ "{" +:+ name +:+ "}" +:+ post) = true).
  { by rewrite !string_forall_append, (plain_no_nul pre Hpre), (plain_no_nul name Hname),
      (plain_no_nul post Hpost). }
  by rewrite (replace3_none NUL "O" NUL "{" _ Hnul), (replace3_none NUL "C" NUL "}" _ Hnul).
Qed.

(** Suppression: a computed value made of a key, an equals sign and
    nothing but whitespace is replaced by the empty string. *)
Lemma bare_assignment_suppressed formatters dom submitter rh k key' tail :
  is_key_char k = true → string_forall is_key_char key' = true →
  string_forall is_space tail = true →
  interpolate formatters (template rh) (values dom submitter rh)
    = String k key' +:+ "=" +:+ tail →
  computeValue formatters dom submitter rh = "".
Proof.
  intros Hk Hkey Htail Hresult. unfold computeValue. rewrite Hresult.
  assert (Hbare : is_bare_assignment (String k key' +:+ "=" +:+ tail) = true).
  { unfold is_bare_assignment.
    rewrite (span_all is_key_char (String k key') ("=" +:+ tail)); [done| |done].
    cbn [string_forall]. by rewrite Hk, Hkey. }
  rewrite Hbare. by rewrite andb_false_r.
Qed.


(** C4. The template [pages={missing}] with no value for [missing] comes
    back unchanged, and the computed value [pages= ] is suppressed.  But an
    identifier that names a member of [Object.prototype] is found by [in]
    although no field carries it: the placeholder is replaced by the text of
    the inherited member and is not left verbatim. *)
Theorem inherited_name_is_substituted :
  interpolate core_formatters "pages={missing}" (fromEntries []) = "pages={missing}"
  ∧ computeValue core_formatters sample_dom None
      {| rh_node := 6; rh_id := ""; rh_header_attr := Some "Range";
         rh_value_attr := Some "pages= " |} = ""
  ∧ (fromEntries []) !! "__proto__" = None
  ∧ interpolate core_formatters "{__proto__}" (fromEntries []) = "[object Object]"
  ∧ values sample_dom None debug_header !! "constructor" = None
  ∧ computeValue core_formatters sample_dom None debug_header ≠ "{constructor}".
Proof.
  split_and!; try (vm_compute; reflexivity).
  vm_compute. discriminate.
Qed.

(** C8. [interpolate("{{x}}", {x: "v"})] is [{x}].  But the sentinels of
    two escapes overlap when a capital O stands between a closing and an
    opening escape: the first restoring pass takes the end of the one, the O
    and the start of the other for an opening sentinel, and the result keeps
    NUL characters instead of the braces. *)
Theorem escape_sentinels_overlap :
  interpolate core_formatters "{{x}}" (fromEntries [("x", Text "v")]) = "{x}"
  ∧ protect "{{a}}O{{b}}"
    = SENTINEL_OPEN +:+ "a" +:+ SENTINEL_CLOSE +:+ "O" +:+ SENTINEL_OPEN +:+ "b" +:+ SENTINEL_CLOSE
  ∧ interpolate core_formatters "{{a}}O{{b}}" (fromEntries [])
    = "{a" +:+ String NUL "C{O" +:+ String NUL "b}"
  ∧ interpolate core_formatters "{{a}}O{{b}}" (fromEntries []) ≠ "{a}O{b}".
Proof.
  split_and!; try (vm_compute; reflexivity).
  vm_compute. discriminate.
Qed.

(** ** The header map *)

Lemma map_get_set_eq k v m : map_get k (map_set k v m) = Some v.
Proof.
  induction m as [|[k' v'] m IH]; simpl.
  - by rewrite String.eqb_refl.
  - destruct (String.eqb_spec k' k) as [->|Hne]; simpl.
    + by rewrite String.eqb_refl.
    + destruct (String.eqb_spec k' k); [done|]. exact IH.
Qed.

Lemma map_get_set_ne k k' v m : k ≠ k' → map_get k' (map_set k v m) = map_get k' m.
Proof.
  intros Hne. induction m as [|[k0 v0] m IH]; simpl.
  - destruct (String.eqb_spec k k'); [done|]. done.
  - destruct (String.eqb_spec k0 k) as [->|Hk0]; simpl.
    + destruct (String.eqb_spec k k'); [done|]. done.
    + destruct (String.eqb_spec k0 k'); [done|]. exact IH.
Qed.

Lemma map_get_None k m : map_get k m = None ↔ k ∉ m.*1.
Proof.
  induction m as [|[k' v'] m IH]; simpl.
  - split; [intros _; apply not_elem_of_nil | done].
  - destruct (String.eqb_spec k' k) as [->|Hne].
    + split; [done|]. intros H. exfalso. apply H. left.
    + rewrite IH, not_elem_of_cons. split; [intros H; by split | by intros [_ H]].
Qed.

Lemma map_set_keys k v m :
  (map_set k v m).*1 = match map_get k m with Some _ => m.*1 | None => m.*1 ++ [k] end.
Proof.
  induction m as [|[k' v'] m IH]; [done|]. cbn [map_set map_get].
  destruct (String.eqb_spec k' k) as [->|Hne]; [done|].
  rewrite !fmap_cons, IH. by destruct (map_get k m).
Qed.

Lemma map_get_filter k v m :
  NoDup m.*1 → map_get k m = Some v →
  filter (fun e : string * list string => e.1 = k) m = [(k, v)].
Proof.
  induction m as [|[k' v'] m IH]; simpl; [done|].
  intros Hnd Hget. apply NoDup_cons in Hnd as [Hnotin Hnd].
  rewrite filter_cons. simpl.
  destruct (String.eqb_spec k' k) as [->|Hne].
  - injection Hget as ->. rewrite decide_True by done. f_equal.
    apply filter_none. intros [k0 v0] Hin Hk0. simpl in Hk0. subst k0.
    apply Hnotin. apply list_elem_of_fmap. by exists (k, v0).
  - rewrite decide_False by done. by apply IH.
Qed.

Lemma elem_of_first_occurrences x l : x ∈ first_occurrences l ↔ x ∈ l.
Proof.
  induction l as [|y l IH]; simpl; [done|].
  rewrite !elem_of_cons, list_elem_of_filter, IH.
  destruct (decide (x = y)) as [->|Hne]; [split; auto|].
  split; [intros [?|[_ ?]]; auto | intros [?|?]; [done | auto]].
Qed.

Lemma NoDup_first_occurrences l : NoDup (first_occurrences l).
Proof.
  induction l as [|y l IH]; simpl; [constructor|].
  apply NoDup_cons. split.
  - rewrite list_elem_of_filter. by intros [Hne _].
  - by apply NoDup_filter.
Qed.

Lemma first_occurrences_snoc l x :
  first_occurrences (l ++ [x]) =
  if decide (x ∈ l) then first_occurrences l else first_occurrences l ++ [x].
Proof.
  induction l as [|y l IH]; cbn [app first_occurrences].
  - rewrite decide_False by apply not_elem_of_nil. done.
  - rewrite IH. destruct (decide (x ∈ l)) as [Hin|Hnotin].
    + rewrite decide_True by (by right). done.
    + rewrite filter_app, filter_cons, filter_nil.
      destruct (decide (x = y)) as [->|Hne].
      * rewrite decide_False by (by intros H). rewrite decide_True by left.
        by rewrite app_nil_r.
      * rewrite decide_True by done.
        rewrite decide_False; [done|]. rewrite elem_of_cons. by intros [?|?].
Qed.

(** ** collectHeaders *)

Section HeaderTheory.

Context (formatters : string -> option Formatter) (dom : FormDOM)
        (submitter : option Submitter).

Lemma declared_snoc n ds d :
  declared n (ds ++ [d]) =
  if decide (decl_name d = n) then declared n ds ++ [d] else declared n ds.
Proof.
  unfold declared. rewrite filter_app, filter_cons, filter_nil.
  destruct (decide (decl_name d = n)); [done|]. by rewrite app_nil_r.
Qed.

Lemma segments_snoc_ne n ds d :
  decl_name d ≠ n → segments formatters dom submitter n (ds ++ [d]) = segments formatters dom submitter n ds.
Proof. intros Hne. unfold segments. by rewrite declared_snoc, decide_False. Qed.

Lemma declared_names_snoc ds d :
  declared_names (ds ++ [d]) =
  if nonempty (decl_name d) then declared_names ds ++ [decl_name d] else declared_names ds.
Proof.
  unfold declared_names. rewrite fmap_app, filter_app.
  change (decl_name <$> [d]) with [decl_name d].
  rewrite filter_cons, filter_nil.
  destruct (nonempty (decl_name d)) eqn:Hd.
  - done.
  - apply app_nil_r.
Qed.

Lemma header_map_snoc ds d :
  header_map formatters dom submitter (ds ++ [d]) =
  collectHeaders_step formatters dom submitter (header_map formatters dom submitter ds) d.
Proof. unfold header_map. by rewrite foldl_app. Qed.

Lemma header_map_spec ds :
  (header_map formatters dom submitter ds).*1 = first_occurrences (declared_names ds) ∧
  ∀ n, map_get n (header_map formatters dom submitter ds) =
       if nonempty n
       then match declared n ds with [] => None | _ => Some (segments formatters dom submitter n ds) end
       else None.
Proof.
  induction ds as [|d ds [IHk IHg]] using rev_ind.
  - split; [done|]. intros n. by destruct (nonempty n).
  - rewrite header_map_snoc, declared_names_snoc.
    unfold collectHeaders_step. fold (decl_name d).
    destruct (nonempty (decl_name d)) eqn:Hd; cbn [negb].
    + split.
      * rewrite map_set_keys, first_occurrences_snoc, IHk.
        destruct (map_get (decl_name d) (header_map formatters dom submitter ds)) eqn:Hget.
        -- rewrite decide_True; [done|].
           rewrite <- elem_of_first_occurrences, <- IHk.
           destruct (decide (decl_name d ∈ (header_map formatters dom submitter ds).*1)) as [|Hn]; [done|].
           apply map_get_None in Hn. congruence.
        -- rewrite decide_False; [done|].
           rewrite <- elem_of_first_occurrences, <- IHk. by apply map_get_None.
      * intros n. rewrite declared_snoc.
        destruct (decide (decl_name d = n)) as [<-|Hne].
        -- rewrite map_get_set_eq, Hd.
           destruct (declared (decl_name d) ds ++ [d]) eqn:Happ.
           { by apply app_eq_nil in Happ as [_ ?]. }
           clear Happ. f_equal. unfold segments.
           rewrite declared_snoc, decide_True by done.
           rewrite fmap_app, IHg, Hd. cbn [fmap list_fmap].
           destruct (combinable (decl_name d)) eqn:Hc.
           ++ destruct (declared (decl_name d) ds) eqn:Hdecl; [done|].
              cbn [default]. unfold segments. by rewrite Hc, Hdecl.
           ++ by rewrite last_snoc.
        -- rewrite map_get_set_ne, segments_snoc_ne by done. apply IHg.
    + split; [done|]. intros n. rewrite declared_snoc.
      destruct (decide (decl_name d = n)) as [<-|Hne].
      * rewrite Hd. specialize (IHg (decl_name d)). by rewrite Hd in IHg.
      * rewrite segments_snoc_ne by done. apply IHg.
Qed.

End HeaderTheory.

Lemma collectHeaders_header_map formatters dom submitter :
  collectHeaders formatters dom submitter =
  (fun nv : string * list string => (nv.1, emitted nv.2))
    <$> header_map formatters dom submitter (request_headers dom).
Proof. reflexivity. Qed.

Lemma collectHeaders_keys formatters dom submitter :
  (collectHeaders formatters dom submitter).*1 =
  first_occurrences (declared_names (request_headers dom)).
Proof.
  rewrite collectHeaders_header_map, <- list_fmap_compose.
  apply (header_map_spec formatters dom submitter).
Qed.

Lemma emitted_filter n v (m : HeaderMap) :
  NoDup m.*1 → map_get n m = Some v →
  filter (fun e : string * string => e.1 = n)
         ((fun nv : string * list string => (nv.1, emitted nv.2)) <$> m)
  = [(n, emitted v)].
Proof.
  induction m as [|[k' v'] m IH]; [done|].
  rewrite fmap_cons. intros Hnd Hget. apply NoDup_cons in Hnd as [Hnotin Hnd].
  rewrite fmap_cons, filter_cons. cbn [map_get fst snd] in *.
  destruct (String.eqb_spec k' n) as [->|Hne].
  - injection Hget as ->. rewrite decide_True by done. f_equal.
    apply filter_none. intros [k0 v0] Hin Hk0. simpl in Hk0. subst k0.
    apply list_elem_of_fmap in Hin as [[k1 v1] [[= -> ->] Hin]].
    apply Hnotin. apply list_elem_of_fmap. by exists (k1, v1).
  - rewrite decide_False by done. by apply IH.
Qed.

(** The entries of the output filed under a declared name. *)
Lemma collectHeaders_entry formatters dom submitter n :
  n ≠ EmptyString → declared n (request_headers dom) ≠ [] →
  filter (fun e : string * string => e.1 = n) (collectHeaders formatters dom submitter)
  = [(n, emitted (segments formatters dom submitter n (request_headers dom)))].
Proof.
  intros Hn Hdecl. rewrite collectHeaders_header_map.
  destruct (header_map_spec formatters dom submitter (request_headers dom)) as [Hk Hg].
  apply emitted_filter.
  - rewrite Hk. apply NoDup_first_occurrences.
  - rewrite Hg. apply nonempty_true in Hn. destruct (nonempty n); [|done].
    by destruct (declared n (request_headers dom)).
Qed.

Lemma elem_of_declared_names n ds :
  n ∈ declared_names ds ↔ n ≠ EmptyString ∧ ∃ d, d ∈ ds ∧ decl_name d = n.
Proof.
  unfold declared_names. rewrite list_elem_of_filter, list_elem_of_fmap, nonempty_true.
  split; intros [Hn [d Hd]]; (split; [done|]); exists d; by destruct Hd.
Qed.

Lemma declared_nonempty n ds d : d ∈ ds → decl_name d = n → declared n ds ≠ [].
Proof.
  intros Hin Hn Hnil. assert (Hd : d ∈ declared n ds) by by apply list_elem_of_filter.
  rewrite Hnil in Hd. by apply not_elem_of_nil in Hd.
Qed.

Lemma elem_of_segments formatters dom submitter n ds x :
  x ∈ segments formatters dom submitter n ds →
  ∃ d, d ∈ ds ∧ decl_name d = n ∧ computeValue formatters dom submitter d = x.
Proof.
  unfold segments.
  assert (Hall : x ∈ computeValue formatters dom submitter <$> declared n ds →
                 ∃ d, d ∈ ds ∧ decl_name d = n ∧ computeValue formatters dom submitter d = x).
  { intros [d [-> Hd]]%list_elem_of_fmap. apply list_elem_of_filter in Hd as [Hn Hd].
    by exists d. }
  destruct (combinable n); [done|].
  destruct (last _) as [v|] eqn:Hlast; simpl; [|by intros ?%not_elem_of_nil].
  intros ->%list_elem_of_singleton. apply Hall.
  apply last_Some in Hlast as [l' ->]. apply elem_of_app. right. left.
Qed.

Lemma emitted_all_empty segs : (∀ x, x ∈ segs → x = EmptyString) → emitted segs = EmptyString.
Proof.
  intros Hall. unfold emitted. rewrite filter_none; [done|].
  intros x Hx Hne. apply nonempty_true in Hne. by apply Hne, Hall.
Qed.

Lemma emitted_pair a b :
  a ≠ EmptyString → b ≠ EmptyString → emitted [a; b] = a +:+ ", " +:+ b.
Proof.
  intros Ha%nonempty_true Hb%nonempty_true. unfold emitted.
  by rewrite !filter_cons, filter_nil, !decide_True.
Qed.

Lemma emitted_single b : emitted [b] = b.
Proof. destruct b; reflexivity. Qed.

Lemma declared_none n ds : (∀ d, d ∈ ds → decl_name d ≠ n) → declared n ds = [].
Proof. intros Hall. by apply filter_none. Qed.

(** C5. The output of [collectHeaders] lists the lowercased, non-empty
    header names of the declarations, each once, in the order in which they
    first occur in the document; a name is listed exactly when some
    declaration carries it; and a name all of whose declarations compute the
    empty string is still listed, with the empty string as its value. *)
Theorem collectHeaders_one_entry_per_name
    (formatters : string -> option Formatter) (dom : FormDOM)
    (submitter : option Submitter) :
  (collectHeaders formatters dom submitter).*1
    = first_occurrences (declared_names (request_headers dom))
  ∧ NoDup (collectHeaders formatters dom submitter).*1
  ∧ (∀ n, n ∈ (collectHeaders formatters dom submitter).*1
          ↔ n ≠ EmptyString ∧ ∃ d, d ∈ request_headers dom ∧ decl_name d = n)
  ∧ (∀ n, n ∈ (collectHeaders formatters dom submitter).*1 →
          (∀ d, d ∈ request_headers dom → decl_name d = n →
                computeValue formatters dom submitter d = EmptyString) →
          filter (fun e : string * string => e.1 = n)
                 (collectHeaders formatters dom submitter) = [(n, EmptyString)]).
Proof.
  rewrite collectHeaders_keys. split_and!.
  - done.
  - apply NoDup_first_occurrences.
  - intros n. by rewrite elem_of_first_occurrences, elem_of_declared_names.
  - intros n Hin Hempty.
    apply elem_of_first_occurrences, elem_of_declared_names in Hin as [Hn [d [Hd Hdn]]].
    rewrite collectHeaders_entry by eauto using declared_nonempty.
    rewrite emitted_all_empty; [done|].
    intros x [d' (Hd' & Hn' & <-)]%elem_of_segments. by apply Hempty.
Qed.

Lemma collectHeaders_one_entry_per_name_witness :
  (collectHeaders core_formatters sample_dom None).*1 = ["prefer"; "x-trace"]
  ∧ NoDup (collectHeaders core_formatters sample_dom None).*1.
Proof.
  destruct (collectHeaders_one_entry_per_name core_formatters sample_dom None)
    as (Hkeys & Hnodup & _).
  split; [|exact Hnodup].
  rewrite Hkeys. vm_compute. reflexivity.
Defined.

(** C1. Two declarations [d1], [d2] of one lowercased header name [n], in
    this order, compute [a] and [b].  When [n] is combinable, no other
    declaration carries [n] and both values are non-empty, the output has a
    single entry for [n], with value [a, b].  When [n] is not combinable and
    no declaration after [d2] carries [n], the single entry for [n] has the
    value [b], whatever came before and also when [b] is empty. *)
Theorem collectHeaders_same_name
    (formatters : string -> option Formatter) (dom : FormDOM)
    (submitter : option Submitter)
    (l1 l2 l3 : list RequestHeader) (d1 d2 : RequestHeader) (n a b : string) :
  request_headers dom = l1 ++ d1 :: l2 ++ d2 :: l3 →
  n ≠ EmptyString →
  decl_name d1 = n → decl_name d2 = n →
  (∀ d, d ∈ l3 → decl_name d ≠ n) →
  computeValue formatters dom submitter d1 = a →
  computeValue formatters dom submitter d2 = b →
  (combinable n → (∀ d, d ∈ l1 ++ l2 → decl_name d ≠ n) →
   a ≠ EmptyString → b ≠ EmptyString →
   filter (fun e : string * string => e.1 = n) (collectHeaders formatters dom submitter)
   = [(n, a +:+ ", " +:+ b)])
  ∧ (¬ combinable n →
     filter (fun e : string * string => e.1 = n) (collectHeaders formatters dom submitter)
     = [(n, b)]).
Proof.
  intros Hds Hn Hd1 Hd2 Hl3 Ha Hb.
  assert (Hentry := collectHeaders_entry formatters dom submitter n Hn).
  rewrite Hds in Hentry.
  assert (Hdecl : declared n (l1 ++ d1 :: l2 ++ d2 :: l3)
                  = declared n (l1 ++ d1 :: l2) ++ [d2]).
  { unfold declared.
    rewrite !filter_app, !(filter_cons_True _ d1), filter_app by done.
    rewrite (filter_cons_True _ d2), (filter_none _ l3) by done.
    by rewrite <- !app_assoc. }
  rewrite Hentry; clear Hentry.
  2:{ rewrite Hdecl. by intros [_ ?]%app_eq_nil. }
  unfold segments. rewrite Hdecl, fmap_app. cbn [fmap list_fmap]. rewrite Hb.
  split.
  - intros Hc Hl12 Ha' Hb'. destruct (combinable n); [|done].
    unfold declared. rewrite filter_app, filter_cons_True by done.
    rewrite !filter_none.
    + cbn [fmap list_fmap app]. rewrite Ha. by rewrite emitted_pair.
    + intros d Hd. apply Hl12, elem_of_app. by right.
    + intros d Hd. apply Hl12, elem_of_app. by left.
  - intros Hc. destruct (combinable n); [by destruct Hc|].
    rewrite last_snoc. simpl. by rewrite emitted_single.
Qed.

Lemma collectHeaders_same_name_witness :
  filter (fun e : string * string => e.1 = "prefer")
         (collectHeaders core_formatters sample_dom None)
  = [("prefer", "view=list, wait=30")]
  ∧ filter (fun e : string * string => e.1 = "x-trace")
           (collectHeaders core_formatters sample_dom None)
    = [("x-trace", "bbb")].
Proof.
  split.
  - refine (proj1 (collectHeaders_same_name core_formatters sample_dom None
                     [] [trace_first] [trace_second] prefer_view prefer_wait
                     "prefer" "view=list" "wait=30" _ _ _ _ _ _ _) _ _ _ _).
    + reflexivity.
    + discriminate.
    + vm_compute. reflexivity.
    + vm_compute. reflexivity.
    + intros d ->%list_elem_of_singleton. vm_compute. discriminate.
    + vm_compute. reflexivity.
    + vm_compute. reflexivity.
    + vm_compute. exact I.
    + intros d ->%list_elem_of_singleton. vm_compute. discriminate.
    + discriminate.
    + discriminate.
  - refine (proj2 (collectHeaders_same_name core_formatters sample_dom None
                     [prefer_view] [prefer_wait] [] trace_first trace_second
                     "x-trace" "aaa" "bbb" _ _ _ _ _ _ _) _).
    + reflexivity.
    + discriminate.
    + vm_compute. reflexivity.
    + vm_compute. reflexivity.
    + intros d []%not_elem_of_nil.
    + vm_compute. reflexivity.
    + vm_compute. reflexivity.
    + vm_compute. exact (fun H => H).
Defined.

(** ** Routing of the form data *)

Lemma foldr_fd_delete (names : list string) (fd : list Entry) :
  foldr fd_delete fd names = filter (fun e : Entry => e.1 ∉ names) fd.
Proof.
  induction names as [|x names IH]; simpl.
  - symmetry. apply filter_all. intros e _. apply not_elem_of_nil.
  - rewrite IH. unfold fd_delete. rewrite list_filter_filter.
    apply list_filter_iff. intros e. rewrite not_elem_of_cons.
    destruct (String.eqb_spec e.1 x); simpl; split; try done.
    + by intros [[] _].
    + by intros [? _].
    + by intros [_ ?].
    + by intros [_ ?].
Qed.

Lemma collectFormData_free dom submitter :
  collectFormData dom submitter = free_fields dom submitter.
Proof.
  unfold collectFormData, free_fields, set_fold. simpl.
  rewrite foldr_fd_delete. apply list_filter_iff. intros e.
  by rewrite elem_of_elements.
Qed.

(** A name is header-bound when an element of that name, not empty, is
    contained in a request-header fieldset or linked to its id by [for]. *)
Lemma elem_of_getHeaderBoundFields dom name :
  name ∈ getHeaderBoundFields dom ↔
  name ≠ EmptyString ∧
  ∃ rh el, rh ∈ request_headers dom ∧ el ∈ elements dom ∧ el_name el = name ∧
           (for_is rh el ∨ contains rh el).
Proof.
  unfold getHeaderBoundFields. rewrite elem_of_list_to_set, list_elem_of_In, in_flat_map.
  split.
  - intros (rh & Hrh & Hin). apply in_flat_map in Hin as (el & Hel & Hname).
    apply list_elem_of_In in Hrh, Hel. apply list_elem_of_filter in Hel as [Hbound Hel].
    destruct (nonempty (el_name el)) eqn:Hne; simpl in Hname; [|done].
    destruct Hname as [<-|[]]. split; [by apply nonempty_true; rewrite Hne|].
    exists rh, el. split_and!; try done. by apply orb_True.
  - intros (Hne & rh & el & Hrh & Hel & <- & Hbound).
    exists rh. split; [by apply list_elem_of_In|].
    apply in_flat_map. exists el. split.
    + apply list_elem_of_In, list_elem_of_filter. split; [by apply orb_True|done].
    + apply nonempty_true in Hne. destruct (nonempty (el_name el)); [by left|done].
Qed.

Lemma buildRequest_query formatters dom submitter :
  query_method (effective_method dom submitter) →
  buildRequest formatters dom submitter =
  {| req_url := {| url_input := effective_action dom submitter;
                   url_search := AssignedSearch
                     ((fun e : Entry => (e.1, query_value e.2)) <$> free_fields dom submitter) |};
     req_method := effective_method dom submitter;
     req_headers := collectHeaders formatters dom submitter;
     req_body := NoBody;
     req_redirect := "follow" |}.
Proof.
  intros Hq. unfold buildRequest. rewrite collectFormData_free.
  by destruct (query_method _).
Qed.

Lemma buildRequest_body formatters dom submitter :
  ¬ query_method (effective_method dom submitter) →
  buildRequest formatters dom submitter =
  {| req_url := {| url_input := effective_action dom submitter;
                   url_search := ParsedSearch |};
     req_method := effective_method dom submitter;
     req_headers := collectHeaders formatters dom submitter;
     req_body := encodeBody (free_fields dom submitter) (effective_enctype dom submitter);
     req_redirect := "follow" |}.
Proof.
  intros Hq. unfold buildRequest. rewrite collectFormData_free.
  by destruct (query_method _).
Qed.

Lemma encodeBody_carries fd enctype e :
  e ∈ fd →
  (enctype = "application/x-www-form-urlencoded" → ∃ s, e.2 = Text s) →
  carried_by (encodeBody fd enctype) e.
Proof.
  intros Hin Htext. unfold encodeBody.
  destruct (String.eqb_spec enctype "text/plain") as [_|_].
  - apply list_elem_of_split in Hin as (before & after & ->). by exists before, after.
  - destruct (String.eqb_spec enctype "application/x-www-form-urlencoded") as [Henc|_];
      [|exact Hin].
    destruct (Htext Henc) as [s Hs]. exists s. split; [done|].
    apply list_elem_of_In, in_flat_map. exists e. split; [by apply list_elem_of_In|].
    rewrite Hs. by left.
Qed.

Lemma not_elem_of_free_fields dom submitter name :
  name ∈ getHeaderBoundFields dom → name ∉ (free_fields dom submitter).*1.
Proof.
  intros Hbound [e [-> He]]%list_elem_of_fmap.
  by apply list_elem_of_filter in He as [Hfree _].
Qed.

Lemma encodeBody_urlencoded_names fd enctype params name :
  encodeBody fd enctype = UrlEncoded params → name ∉ fd.*1 → name ∉ params.*1.
Proof.
  unfold encodeBody. destruct (String.eqb enctype "text/plain"); [done|].
  destruct (String.eqb enctype "application/x-www-form-urlencoded"); [|done].
  intros [= <-] Hfd [[k v] [-> Hin]]%list_elem_of_fmap. apply Hfd.
  apply list_elem_of_In, in_flat_map in Hin as ([k' v'] & Hin & Hkv).
  apply list_elem_of_In in Hin. apply list_elem_of_fmap. exists (k', v').
  split; [|done]. destruct v'; simpl in Hkv; [|done]. by destruct Hkv as [[= -> _]|[]].
Qed.

Lemma encodeBody_multipart fd enctype fd' : encodeBody fd enctype = Multipart fd' → fd' = fd.
Proof.
  unfold encodeBody. destruct (String.eqb enctype "text/plain"); [done|].
  destruct (String.eqb enctype "application/x-www-form-urlencoded"); [done|]. by intros [= <-].
Qed.

Lemma encodeBody_plain fd enctype s :
  encodeBody fd enctype = PlainText s → s = join CRLF (plain_line <$> fd).
Proof.
  unfold encodeBody. destruct (String.eqb enctype "text/plain"); [by intros [= <-]|].
  by destruct (String.eqb enctype "application/x-www-form-urlencoded").
Qed.

(** C2, the claim as it stands, fails: under [POST] with the default
    enctype the free file field [upload] is not carried by the body. *)
Lemma post_urlencoded_drops_file :
  effective_method upload_dom None = "POST"
  ∧ effective_enctype upload_dom None = "application/x-www-form-urlencoded"
  ∧ ("upload", File "report.pdf") ∈ free_fields upload_dom None
  ∧ req_body (buildRequest core_formatters upload_dom None) = UrlEncoded [("q", "rocq")]
  ∧ ¬ carried_by (req_body (buildRequest core_formatters upload_dom None))
                 ("upload", File "report.pdf").
Proof.
  split_and!.
  - vm_compute. reflexivity.
  - vm_compute. reflexivity.
  - apply list_elem_of_In. vm_compute. tauto.
  - vm_compute. reflexivity.
  - intros [s [Hs _]]. discriminate Hs.
Qed.

(** C2, amended.  Under [GET], [HEAD] and [DELETE] the search component is
    assigned the free fields, a file by its name, so each of them is in the
    query string, and there is no body.  Under [POST], [PUT] and [PATCH] the
    search component is left as parsed and the body is the encoding of the
    free fields under the effective enctype; it carries every free field,
    except that [application/x-www-form-urlencoded] drops the files. *)
Theorem routing_by_method
    (formatters : string -> option Formatter) (dom : FormDOM)
    (submitter : option Submitter) :
  (effective_method dom submitter ∈ ["GET"; "HEAD"; "DELETE"] →
   ∃ params,
     url_search (req_url (buildRequest formatters dom submitter)) = AssignedSearch params
     ∧ params = query_pair <$> free_fields dom submitter
     ∧ (∀ e, e ∈ free_fields dom submitter → (e.1, query_value e.2) ∈ params)
     ∧ req_body (buildRequest formatters dom submitter) = NoBody)
  ∧ (effective_method dom submitter ∈ ["POST"; "PUT"; "PATCH"] →
     url_search (req_url (buildRequest formatters dom submitter)) = ParsedSearch
     ∧ req_body (buildRequest formatters dom submitter)
         = encodeBody (free_fields dom submitter) (effective_enctype dom submitter)
     ∧ (∀ e, e ∈ free_fields dom submitter →
             (effective_enctype dom submitter = "application/x-www-form-urlencoded" →
              ∃ s, e.2 = Text s) →
             carried_by (req_body (buildRequest formatters dom submitter)) e)).
Proof.
  split.
  - intros Hm. rewrite buildRequest_query by (by apply bool_decide_pack).
    eexists. split_and!; [done|done| |done].
    intros e He. by apply (list_elem_of_fmap_2 query_pair).
  - intros Hm. rewrite buildRequest_body.
    + split_and!; [done|done|]. intros e He Htext. by apply encodeBody_carries.
    + intros Hq. set (m := effective_method dom submitter) in *.
      repeat (apply elem_of_cons in Hm as [Hm|Hm];
              [rewrite Hm in Hq; vm_compute in Hq; exact Hq|]).
      by apply not_elem_of_nil in Hm.
Qed.

Lemma routing_by_method_witness :
  url_search (req_url (buildRequest core_formatters sample_dom None))
    = AssignedSearch [("q", "rocq"); ("upload", "report.pdf")]
  ∧ req_body (buildRequest core_formatters sample_dom None) = NoBody
  ∧ url_search (req_url (buildRequest core_formatters upload_dom None)) = ParsedSearch
  ∧ carried_by (req_body (buildRequest core_formatters upload_dom None)) ("q", Text "rocq").
Proof.
  destruct (routing_by_method core_formatters sample_dom None) as [Hget _].
  destruct (routing_by_method core_formatters upload_dom None) as [_ Hpost].
  destruct Hget as (params & Hsearch & -> & _ & Hbody).
  { apply list_elem_of_In. vm_compute. tauto. }
  destruct Hpost as (Hparsed & _ & Hcarried).
  { apply list_elem_of_In. vm_compute. tauto. }
  split_and!; [exact Hsearch | exact Hbody | exact Hparsed |].
  apply Hcarried.
  - apply list_elem_of_In. vm_compute. tauto.
  - intros _. by exists "rocq".
Defined.

(** C3. A field whose name, not empty, belongs to an element that some
    request-header fieldset contains or that links to its id by [for] is
    not among the entries that are routed; hence its name is neither a
    parameter of the assigned query string nor a parameter or part of the
    body, and a [text/plain] body is written from the routed entries
    alone.  Further declarations binding the same name change nothing. *)
Theorem bound_field_not_routed
    (formatters : string -> option Formatter) (dom : FormDOM)
    (submitter : option Submitter) (rh : RequestHeader) (el : Element) :
  rh ∈ request_headers dom →
  el ∈ elements dom →
  for_is rh el ∨ contains rh el →
  el_name el ≠ EmptyString →
  (el_name el ∉ (collectFormData dom submitter).*1)
  ∧ (∀ params, url_search (req_url (buildRequest formatters dom submitter))
                 = AssignedSearch params → el_name el ∉ params.*1)
  ∧ (∀ params, req_body (buildRequest formatters dom submitter) = UrlEncoded params →
               el_name el ∉ params.*1)
  ∧ (∀ fd, req_body (buildRequest formatters dom submitter) = Multipart fd →
           el_name el ∉ fd.*1)
  ∧ (∀ s, req_body (buildRequest formatters dom submitter) = PlainText s →
          s = join CRLF (plain_line <$> collectFormData dom submitter)).
Proof.
  intros Hrh Hel Hbound Hname.
  assert (Hset : el_name el ∈ getHeaderBoundFields dom).
  { apply elem_of_getHeaderBoundFields. split; [done|]. by exists rh, el. }
  assert (Hfree := not_elem_of_free_fields dom submitter _ Hset).
  rewrite collectFormData_free.
  destruct (query_method (effective_method dom submitter)) eqn:Hq.
  - rewrite buildRequest_query by (by rewrite Hq). simpl.
    split_and!; try done. intros params [= <-].
    intros [[k v] [Hk [e [[= -> ->] He]]%list_elem_of_fmap]]%list_elem_of_fmap.
    apply Hfree. apply list_elem_of_fmap. by exists e.
  - rewrite buildRequest_body by (rewrite Hq; intros []). simpl.
    split_and!; try done.
    + intros params Hp. by eapply encodeBody_urlencoded_names.
    + intros fd Hfd. by rewrite (encodeBody_multipart _ _ _ Hfd).
    + intros s Hs. by eapply encodeBody_plain.
Qed.

Lemma bound_field_not_routed_witness :
  ("view" ∉ (collectFormData sample_dom None).*1)
  ∧ (∀ params, url_search (req_url (buildRequest core_formatters sample_dom None))
                 = AssignedSearch params → "view" ∉ params.*1).
Proof.
  destruct (bound_field_not_routed core_formatters sample_dom None prefer_view
              {| el_name := "view"; el_for := Some "view-pref"; el_within := [] |})
    as (Hfd & Hquery & _).
  - apply list_elem_of_In. vm_compute. tauto.
  - apply list_elem_of_In. vm_compute. tauto.
  - left. vm_compute. exact I.
  - discriminate.
  - split; [exact Hfd | exact Hquery].
Defined.








(** ** Submission *)

(** C6. When neither [novalidate] nor the submitter's [formnovalidate] is
    set and the constraint check fails, [requestSubmit] calls
    [reportValidity] and nothing else: the trace holds no submit event and
    no fetch, and [preparedRequest] is left as it was. *)
Theorem invalid_form_ends_attempt
    (formatters : string -> option Formatter) (listeners : list Listener)
    (submitter : option Submitter) (this : HTTPAwareForm) :
  noValidate (dom this) = false →
  from_option formNoValidate false submitter = false →
  checkValidity (dom this) = false →
  requestSubmit formatters listeners submitter this
    = ({| dom := dom this; _submitter := submitter;
          preparedRequest := preparedRequest this |}, [ReportValidity])
  ∧ existsb is_dispatch (requestSubmit formatters listeners submitter this).2 = false
  ∧ existsb is_fetch (requestSubmit formatters listeners submitter this).2 = false.
Proof.
  intros Hnv Hfnv Hcv. unfold requestSubmit, shouldValidate. simpl.
  by rewrite Hnv, Hfnv, Hcv.
Qed.

Lemma invalid_form_ends_attempt_witness :
  requestSubmit core_formatters [cancelling] None (connected invalid_dom)
  = (connected invalid_dom, [ReportValidity]).
Proof.
  refine (proj1 (invalid_form_ends_attempt core_formatters [cancelling] None
                   (connected invalid_dom) _ _ _)); reflexivity.
Defined.



Lemma requestSubmit_preparedRequest formatters listeners submitter this :
  preparedRequest this = None →
  preparedRequest (requestSubmit formatters listeners submitter this).1 = None.
Proof.
  intros Hnull. unfold requestSubmit.
  by destruct (shouldValidate _ _ && negb _).
Qed.

Lemma step_preparedRequest formatters c this :
  preparedRequest this = None → preparedRequest (step formatters c this).1 = None.
Proof.
  intros Hnull. destruct c as [|listeners submitter|listeners event|d]; simpl; try done.
  - by apply requestSubmit_preparedRequest.
  - unfold _handleNativeSubmit. destruct (negb (_httpAware event)); simpl; [|done].
    by apply requestSubmit_preparedRequest.
Qed.

Lemma run_preparedRequest formatters calls this :
  preparedRequest this = None → preparedRequest (run formatters calls this).1 = None.
Proof.
  revert this. induction calls as [|c calls IH]; intros this Hnull; [done|].
  simpl. pose proof (step_preparedRequest formatters c this Hnull) as Hstep.
  destruct (step formatters c this) as [this' trace].
  specialize (IH this' Hstep).
  by destruct (run formatters calls this') as [this'' trace'].
Qed.

(** C9. Starting from a connected form, whatever calls are made,
    [preparedRequest] is [null] after each of them; in particular after a
    [requestSubmit] that stopped at validation, was cancelled or started
    the fetch.  Every submit event [requestSubmit] fires is fired while
    [preparedRequest] holds the built request, and [submit] returns the
    form as it found it. *)
Theorem preparedRequest_null_outside_dispatch
    (formatters : string -> option Formatter) :
  (∀ d calls, preparedRequest (run formatters calls (connected d)).1 = None)
  ∧ (∀ d calls listeners submitter,
       preparedRequest
         (requestSubmit formatters listeners submitter
            (run formatters calls (connected d)).1).1 = None)
  ∧ (∀ listeners submitter this ev seen,
       DispatchSubmit ev seen ∈ (requestSubmit formatters listeners submitter this).2 →
       seen = Some (buildRequest formatters (dom this) submitter))
  ∧ (∀ this, (submit formatters this).1 = this).
Proof.
  split_and!.
  - intros d calls. by apply run_preparedRequest.
  - intros d calls listeners submitter.
    by apply requestSubmit_preparedRequest, run_preparedRequest.
  - intros listeners submitter this ev seen. unfold requestSubmit.
    destruct (shouldValidate _ _ && negb _); simpl.
    + by intros [=]%list_elem_of_singleton.
    + destruct (dispatchEvent _ _ _).
      * rewrite !elem_of_cons. intros [[= _ ->]|[[=]|[]%not_elem_of_nil]]. done.
      * by intros [= _ ->]%list_elem_of_singleton.
  - done.
Qed.

Lemma preparedRequest_null_outside_dispatch_witness :
  preparedRequest
    (run core_formatters
       [CallRequestSubmit [observing] None; DocumentChange invalid_dom;
        CallRequestSubmit [] None; CallSubmit;
        NativeSubmit [cancelling] {| ev_submitter := None; _httpAware := false |}]
       (connected sample_dom)).1 = None.
Proof.
  apply (proj1 (preparedRequest_null_outside_dispatch core_formatters)).
Defined.

(** * Further properties *)

(** ** One placeholder in plain text *)

Lemma protect_single_braces pre body post :
  string_forall plain pre = true → string_forall plain body = true →
  string_forall plain post = true →
  protect (pre +:+ "{" +:+ body +:+ "}" +:+ post) = pre +:+ "{" +:+ body +:+ "}" +:+ post.
Proof.
  intros Hpre Hbody Hpost. unfold protect.
  rewrite (replace2_skip LBRACE LBRACE _ pre) by by apply plain_no_lbrace.
  change ("{" +:+ body +:+ "}" +:+ post) with (String LBRACE (body +:+ "}" +:+ post)).
  rewrite (replace2_single LBRACE).
  2:{ by rewrite !string_forall_append, (plain_no_lbrace body Hbody),
        (plain_no_lbrace post Hpost). }
  rewrite (replace2_skip RBRACE RBRACE _ pre) by by apply plain_no_rbrace.
  rewrite (replace2_skip RBRACE RBRACE _ "{" (body +:+ "}" +:+ post)) by reflexivity.
  rewrite (replace2_skip RBRACE RBRACE _ body) by by apply plain_no_rbrace.
  change ("}" +:+ post) with (String RBRACE post).
  by rewrite (replace2_single RBRACE) by by apply plain_no_rbrace.
Qed.

Lemma is_identifier_chars name :
  is_identifier name = true →
  ∃ c0 name', name = String c0 name' ∧ is_ident_start c0 = true
              ∧ string_forall is_ident_char name' = true.
Proof.
  destruct name as [|c0 name']; [done|]. simpl.
  intros [H1 H2]%andb_true_iff. by exists c0, name'.
Qed.

Lemma is_identifier_plain name : is_identifier name = true → string_forall plain name = true.
Proof.
  intros (c0 & name' & -> & Hc0 & Hname')%is_identifier_chars.
  apply (string_forall_impl is_ident_char); [apply ident_char_plain|].
  cbn [string_forall]. by rewrite (is_ident_start_char _ Hc0), Hname'.
Qed.

Lemma match_placeholder_spec name fmt post :
  is_identifier name = true → plain_spec fmt = true →
  match_placeholder
    (name +:+ match fmt with Some f => "," +:+ f | None => "" end +:+ "}" +:+ post)
  = Some (name, fmt, placeholder name fmt, post).
Proof.
  intros (c0 & name' & -> & Hc0 & Hname')%is_identifier_chars Hfmt.
  destruct fmt as [f|].
  - simpl in Hfmt. apply andb_true_iff in Hfmt as [Hne Hf].
    rewrite (append_assoc "," f).
    unfold match_placeholder. rewrite append_cons, Hc0, <- append_cons.
    rewrite (span_all is_ident_char (String c0 name') ("," +:+ f +:+ "}" +:+ post)).
    2:{ cbn [string_forall]. by rewrite (is_ident_start_char _ Hc0), Hname'. }
    2:{ reflexivity. }
    change ("," +:+ f +:+ "}" +:+ post) with (String ","%char (f +:+ "}" +:+ post)).
    cbv beta iota.
    rewrite (span_all (fun c => negb (Ascii.eqb c RBRACE)) f ("}" +:+ post)).
    2:{ by apply plain_no_rbrace. }
    2:{ reflexivity. }
    destruct f as [|c f']; [done|]. reflexivity.
  - rewrite append_nil_l. rewrite match_placeholder_name by done. reflexivity.
Qed.

(** The workhorse: a template of plain text around one placeholder. *)
Lemma interpolate_one_placeholder formatters vals pre name fmt post :
  string_forall plain pre = true → string_forall plain post = true →
  is_identifier name = true → plain_spec fmt = true →
  string_forall (differs NUL) (replacement formatters vals name fmt) = true →
  interpolate formatters (pre +:+ placeholder name fmt +:+ post) vals
  = pre +:+ replacement formatters vals name fmt +:+ post.
Proof.
  intros Hpre Hpost Hname Hfmt Hrep.
  set (body := name +:+ match fmt with Some f => "," +:+ f | None => "" end).
  assert (Hbody : string_forall plain body = true).
  { unfold body. rewrite string_forall_append, (is_identifier_plain _ Hname).
    destruct fmt as [f|]; [|done]. simpl in Hfmt.
    apply andb_true_iff in Hfmt as [_ Hf]. by rewrite string_forall_append, Hf. }
  assert (Htpl : pre +:+ placeholder name fmt +:+ post
                 = pre +:+ "{" +:+ body +:+ "}" +:+ post).
  { unfold placeholder, body. by rewrite !append_assoc. }
  unfold interpolate, substitute. rewrite Htpl, protect_single_braces by done.
  assert (Hsubst : substitute_fuel formatters
                     (String.length (pre +:+ "{" +:+ body +:+ "}" +:+ post)) vals
                     (pre +:+ "{" +:+ body +:+ "}" +:+ post)
                   = pre +:+ replacement formatters vals name fmt +:+ post).
  { rewrite length_append.
    change ("{" +:+ body +:+ "}" +:+ post) with (String LBRACE (body +:+ "}" +:+ post)).
    cbn [String.length]. rewrite substitute_fuel_skip by by apply plain_no_lbrace.
    rewrite substitute_fuel_placeholder. unfold body. rewrite append_assoc.
    rewrite match_placeholder_spec by done.
    rewrite substitute_fuel_none by by apply plain_no_lbrace.
    reflexivity. }
  rewrite Hsubst. unfold restore.
  assert (Hnul : string_forall (differs NUL)
                   (pre +:+ replacement formatters vals name fmt +:+ post) = true).
  { by rewrite !string_forall_append, (plain_no_nul pre Hpre), Hrep,
      (plain_no_nul post Hpost). }
  by rewrite (replace3_none NUL "O" NUL "{" _ Hnul), (replace3_none NUL "C" NUL "}" _ Hnul).
Qed.

Lemma key_char_plain c : is_key_char c = true → plain c = true.
Proof.
  destruct c as [[] [] [] [] [] [] [] []]; vm_compute; intros H; try done.
Qed.

Lemma space_not_nul c : is_space c = true → differs NUL c = true.
Proof.
  destruct c as [[] [] [] [] [] [] [] []]; vm_compute; intros H; try done.
Qed.

Lemma lower_char_not_nul c : differs NUL c = true → differs NUL (lower_char c) = true.
Proof.
  destruct c as [[] [] [] [] [] [] [] []]; vm_compute; intros H; try done.
Qed.

Lemma toLowerCase_no_nul s :
  string_forall (differs NUL) s = true → string_forall (differs NUL) (toLowerCase s) = true.
Proof.
  induction s as [|c s IH]; [done|]. cbn [string_forall toLowerCase].
  intros [Hc Hs]%andb_true_iff. by rewrite (lower_char_not_nul _ Hc), IH.
Qed.

Lemma formatValue_no_spec formatters v :
  formatters "undefined" = None → formatValue formatters v None = String_of v.
Proof. intros Hundef. unfold formatValue. simpl. by rewrite Hundef. Qed.

Lemma replacement_own formatters vals name fmt fv :
  vals !! name = Some fv →
  replacement formatters vals name fmt = formatValue formatters (Own fv) fmt.
Proof.
  intros Hown. unfold replacement, js_in, js_get. rewrite Hown.
  rewrite bool_decide_eq_true_2 by eauto. done.
Qed.

(** X1. A template without braces and without NUL is its own
    interpolation, whatever the values and the registry hold. *)
Theorem plain_template_unchanged
    (formatters : string -> option Formatter) (vals : gmap string FieldValue)
    (tpl : string) :
  string_forall plain tpl = true → interpolate formatters tpl vals = tpl.
Proof.
  intros Hplain. unfold interpolate, substitute, protect, restore.
  rewrite (replace2_none LBRACE) by by apply plain_no_lbrace.
  rewrite (replace2_none RBRACE) by by apply plain_no_rbrace.
  rewrite substitute_fuel_none by by apply plain_no_lbrace.
  rewrite (replace3_none NUL "O") by by apply plain_no_nul.
  by apply replace3_none, plain_no_nul.
Qed.

Lemma plain_template_unchanged_witness :
  interpolate core_formatters "attachment; filename=report.pdf"
    (fromEntries [("filename", Text "x")]) = "attachment; filename=report.pdf".
Proof. apply plain_template_unchanged. vm_compute. reflexivity. Defined.

(** X2. A placeholder without format spec whose name is a key of the
    values is replaced by the text of the value, and that text is not read
    as a template again: braces in it stay as they are.  The registry has
    to hold nothing under the property name of [undefined], and the text no
    NUL. *)
Theorem present_value_inserted
    (formatters : string -> option Formatter) (vals : gmap string FieldValue)
    (pre name post : string) (fv : FieldValue) :
  string_forall plain pre = true → string_forall plain post = true →
  is_identifier name = true →
  vals !! name = Some fv →
  formatters "undefined" = None →
  string_forall (differs NUL) (text_of fv) = true →
  interpolate formatters (pre +:+ "{" +:+ name +:+ "}" +:+ post) vals
  = pre +:+ text_of fv +:+ post.
Proof.
  intros Hpre Hpost Hname Hown Hundef Hnul.
  assert (Hrep : replacement formatters vals name None = text_of fv).
  { by rewrite (replacement_own _ _ _ _ fv), formatValue_no_spec. }
  change (pre +:+ "{" +:+ name +:+ "}" +:+ post)
    with (pre +:+ "{" +:+ name +:+ ("" +:+ "}" +:+ post)).
  rewrite <- (append_assoc name "" ("}" +:+ post)), <- (append_assoc "{").
  rewrite <- (append_assoc ("{" +:+ name +:+ "") "}" post).
  rewrite (append_assoc "{" (name +:+ "") "}").
  rewrite (append_assoc name "" "}").
  fold (placeholder name None).
  rewrite interpolate_one_placeholder by (done || by rewrite Hrep).
  by rewrite Hrep.
Qed.

Lemma present_value_inserted_witness :
  interpolate core_formatters "q={term}!"
    (fromEntries [("term", Text "{term} and {{x}}")]) = "q={term} and {{x}}!".
Proof.
  apply (present_value_inserted core_formatters _ "q=" "term" "!"
           (Text "{term} and {{x}}")); vm_compute; reflexivity.
Defined.

(** ** Format specs *)

Lemma match_formatSpec_name fname :
  nonempty fname = true → string_forall is_word fname = true →
  match_formatSpec fname = Some (fname, None).
Proof.
  intros Hne Hword. unfold match_formatSpec.
  rewrite <- (append_empty_r fname) at 1.
  rewrite (span_all is_word fname "") by done. by destruct fname.
Qed.

Lemma match_formatSpec_args fname raw :
  nonempty fname = true → string_forall is_word fname = true →
  string_forall (differs ")") raw = true →
  match_formatSpec (fname +:+ "(" +:+ raw +:+ ")") = Some (fname, Some raw).
Proof.
  intros Hne Hword Hraw. unfold match_formatSpec.
  rewrite (span_all is_word fname ("(" +:+ raw +:+ ")")) by done.
  destruct fname as [|c fname']; [done|].
  change ("(" +:+ raw +:+ ")") with (String "("%char (raw +:+ ")")).
  cbv beta iota.
  by rewrite (span_all (fun c => negb (Ascii.eqb c ")")) raw ")") by done.
Qed.

Lemma match_formatSpec_not_word c rest :
  is_word c = false → match_formatSpec (String c rest) = None.
Proof. intros Hc. unfold match_formatSpec. simpl. by rewrite Hc. Qed.

(** X3. How a format spec reaches a formatter.  A spec that is a name of
    word characters, alone or followed by an argument text in parentheses,
    looks the name up in the registry; the formatter receives the value and
    the argument text split at commas, each piece trimmed (no arguments
    without parentheses).  A formatter that answers [null] or [undefined]
    leaves the plain text of the value, and so does a name under which
    nothing is registered.  The name is one the registry holds itself or
    one that is not a member of [Object.prototype]: a name that only the
    prototype answers, such as [toString] or [__proto__], finds the
    inherited member instead. *)
Theorem format_spec_calling_convention
    (formatters : string -> option Formatter) (v : JSValue) (fname raw : string) :
  nonempty fname = true → string_forall is_word fname = true →
  string_forall (differs ")") raw = true →
  is_Some (formatters fname) ∨ Object_prototype fname = None →
  formatValue formatters v (Some (fname +:+ "(" +:+ raw +:+ ")"))
    = match formatters fname with
      | Some fn => default (String_of v) (fn v (trim <$> split_comma raw))
      | None => String_of v
      end
  ∧ formatValue formatters v (Some fname)
    = match formatters fname with
      | Some fn => default (String_of v) (fn v [])
      | None => String_of v
      end.
Proof.
  intros Hne Hword Hraw _. unfold formatValue. cbn [mbind option_bind].
  rewrite match_formatSpec_args, match_formatSpec_name by done.
  split; by destruct (formatters fname) as [fn|].
Qed.

Lemma format_spec_calling_convention_witness :
  formatValue echo_registry (Own (Text "7")) (Some "pad( 3 ,x,)") = "3|x|"
  ∧ formatValue echo_registry (Own (Text "7")) (Some "pad") = "".
Proof.
  exact (format_spec_calling_convention echo_registry (Own (Text "7")) "pad" " 3 ,x,"
           eq_refl eq_refl eq_refl (or_intror eq_refl)).
Defined.

Lemma placeholder_none name : placeholder name None = "{" +:+ name +:+ "}".
Proof. reflexivity. Qed.

Lemma formatValue_lower formatters v :
  formatters "lower" = Some lower →
  formatValue formatters v (Some "lower") = toLowerCase (String_of v).
Proof. intros Hlower. unfold formatValue. simpl. by rewrite Hlower. Qed.

Lemma formatValue_malformed formatters v c rest :
  is_word c = false → formatters "undefined" = None →
  formatValue formatters v (Some (String c rest)) = String_of v.
Proof.
  intros Hc Hundef. unfold formatValue. cbn [mbind option_bind].
  by rewrite match_formatSpec_not_word, Hundef.
Qed.

(** X4. With the formatter [lower] of the formatters file registered
    under its name, a placeholder [{name,lower}] whose name is a key of the
    values is replaced by the text of the value in lower case. *)
Theorem lower_formatter_applied
    (formatters : string -> option Formatter) (vals : gmap string FieldValue)
    (pre name post : string) (fv : FieldValue) :
  string_forall plain pre = true → string_forall plain post = true →
  is_identifier name = true →
  vals !! name = Some fv →
  formatters "lower" = Some lower →
  string_forall (differs NUL) (text_of fv) = true →
  interpolate formatters (pre +:+ placeholder name (Some "lower") +:+ post) vals
  = pre +:+ toLowerCase (text_of fv) +:+ post.
Proof.
  intros Hpre Hpost Hname Hown Hlower Hnul.
  assert (Hrep : replacement formatters vals name (Some "lower")
                 = toLowerCase (text_of fv)).
  { by rewrite (replacement_own _ _ _ _ fv), formatValue_lower. }
  rewrite interpolate_one_placeholder; [by rewrite Hrep|done..|].
  rewrite Hrep. by apply toLowerCase_no_nul.
Qed.

Lemma lower_formatter_applied_witness :
  interpolate text_registry "X-Code: {code,lower};"
    (fromEntries [("code", Text "AbC-9")]) = "X-Code: abc-9;".
Proof.
  apply (lower_formatter_applied text_registry _ "X-Code: " "code" ";" (Text "AbC-9"));
    vm_compute; reflexivity.
Defined.

(** X5. The format spec is taken as written, without trimming: when it
    starts with a character that is not a word character (a space after the
    comma, say), no formatter is looked up under its name, whatever is
    registered there, and the value is inserted as plain text.  The
    registry has to hold nothing under the property name of [undefined]. *)
Theorem malformed_spec_is_ignored
    (formatters : string -> option Formatter) (vals : gmap string FieldValue)
    (pre name post : string) (c : ascii) (rest : string) (fv : FieldValue) :
  string_forall plain pre = true → string_forall plain post = true →
  is_identifier name = true →
  is_word c = false → string_forall plain (String c rest) = true →
  vals !! name = Some fv →
  formatters "undefined" = None →
  string_forall (differs NUL) (text_of fv) = true →
  interpolate formatters (pre +:+ placeholder name (Some (String c rest)) +:+ post) vals
  = pre +:+ text_of fv +:+ post.
Proof.
  intros Hpre Hpost Hname Hc Hplain Hown Hundef Hnul.
  assert (Hrep : replacement formatters vals name (Some (String c rest)) = text_of fv).
  { by rewrite (replacement_own _ _ _ _ fv), formatValue_malformed. }
  rewrite interpolate_one_placeholder; [by rewrite Hrep|done..| |by rewrite Hrep].
  unfold plain_spec. by rewrite Hplain.
Qed.

Lemma malformed_spec_is_ignored_witness :
  interpolate text_registry "X-Code: {code, lower};"
    (fromEntries [("code", Text "AbC-9")]) = "X-Code: AbC-9;".
Proof.
  apply (malformed_spec_is_ignored text_registry _ "X-Code: " "code" ";" " " "lower"
           (Text "AbC-9")); vm_compute; reflexivity.
Defined.

(** X6. A declaration whose template is a key, an equals sign and one
    placeholder computes the empty string when the field is blank (empty or
    whitespace only): the unfilled assignment is not emitted. *)
Theorem blank_field_suppresses_assignment
    (formatters : string -> option Formatter) (dom : FormDOM)
    (submitter : option Submitter) (rh : RequestHeader)
    (k : ascii) (key' name blank : string) :
  is_key_char k = true → string_forall is_key_char key' = true →
  is_identifier name = true →
  template rh = String k key' +:+ "={" +:+ name +:+ "}" →
  values dom submitter rh !! name = Some (Text blank) →
  string_forall is_space blank = true →
  formatters "undefined" = None →
  computeValue formatters dom submitter rh = "".
Proof.
  intros Hk Hkey Hname Htpl Hown Hblank Hundef.
  apply (bare_assignment_suppressed formatters dom submitter rh k key' blank);
    [done..|].
  rewrite Htpl.
  assert (Hrep : replacement formatters (values dom submitter rh) name None = blank).
  { by rewrite (replacement_own _ _ _ _ (Text blank)), formatValue_no_spec. }
  assert (Hnul : string_forall (differs NUL) blank = true).
  { by apply (string_forall_impl is_space), Hblank; apply space_not_nul. }
  pose proof (interpolate_one_placeholder formatters (values dom submitter rh)
                (String k key' +:+ "=") name None "") as Hinterp.
  rewrite Hrep, placeholder_none, !append_assoc, !append_empty_r in Hinterp.
  apply Hinterp; try done.
  rewrite string_forall_append. cbn [string_forall].
  by rewrite (key_char_plain _ Hk), (string_forall_impl _ _ _ key_char_plain Hkey).
Qed.

Lemma blank_field_suppresses_assignment_witness :
  computeValue core_formatters blank_dom None range_header = "".
Proof.
  apply (blank_field_suppresses_assignment core_formatters blank_dom None range_header
           "p" "ages" "page" "  "); vm_compute; reflexivity.
Defined.

(** ** The values a declaration sees *)

Lemma fromEntries_snoc (l : list Entry) (e : Entry) :
  fromEntries (l ++ [e]) = <[e.1 := e.2]> (fromEntries l).
Proof. unfold fromEntries. by rewrite foldl_app. Qed.

Lemma fromEntries_lookup (l : list Entry) (k : string) :
  fromEntries l !! k = last (filter (fun e : Entry => e.1 = k) l).*2.
Proof.
  induction l as [|e l IH] using rev_ind; [done|].
  rewrite fromEntries_snoc, lookup_insert, filter_app, filter_cons, filter_nil.
  destruct (decide (e.1 = k)) as [Heq|Hne].
  - rewrite fmap_app. change ([e].*2) with [e.2]. by rewrite last_snoc.
  - by rewrite app_nil_r.
Qed.

(** X7. What a declaration's template can see: the value under a name is
    the value of the last entry of the form data under that name, provided
    some input of the declaration (contained in it or linked to its id)
    carries that name; a field bound to no input of the declaration is not
    among the values, although the form submits it. *)
Theorem values_lookup
    (dom : FormDOM) (submitter : option Submitter) (rh : RequestHeader) (k : string) :
  values dom submitter rh !! k
  = if decide (k ∈ el_name <$> inputs dom rh)
    then last (filter (fun e : Entry => e.1 = k) (formData dom submitter)).*2
    else None.
Proof.
  unfold values. rewrite fromEntries_lookup, list_filter_filter.
  destruct (decide (k ∈ el_name <$> inputs dom rh)) as [Hin|Hnotin].
  - do 2 f_equal. apply list_filter_iff. intros e. split; [by intros [? _]|].
    intros ->. split; [done|]. by apply bool_decide_pack, elem_of_list_to_set.
  - rewrite filter_none; [done|]. intros e _ [-> Hnames].
    by apply bool_decide_unpack, elem_of_list_to_set in Hnames.
Qed.

Lemma values_lookup_witness :
  values blank_dom None range_header !! "page" = Some (Text "  ")
  ∧ values blank_dom None range_header !! "tag" = None.
Proof.
  split.
  - exact (values_lookup blank_dom None range_header "page").
  - exact (values_lookup blank_dom None range_header "tag").
Defined.

(** ** More on the headers *)

Lemma lower_char_idemp c : lower_char (lower_char c) = lower_char c.
Proof. destruct c as [[] [] [] [] [] [] [] []]; reflexivity. Qed.

Lemma toLowerCase_idemp s : toLowerCase (toLowerCase s) = toLowerCase s.
Proof.
  induction s as [|c s IH]; [done|]. cbn [toLowerCase]. by rewrite lower_char_idemp, IH.
Qed.

Lemma elem_of_collectHeaders_names formatters dom submitter n :
  n ∈ (collectHeaders formatters dom submitter).*1 ↔
  n ≠ EmptyString ∧ ∃ d, d ∈ request_headers dom ∧ decl_name d = n.
Proof. by rewrite collectHeaders_keys, elem_of_first_occurrences, elem_of_declared_names. Qed.

(** X8. The value of a header, for any number of declarations of its
    name: for a combinable name the non-empty computed values of all of
    them, in document order, joined by a comma and a space (an empty value
    leaves no separator behind); for any other name the computed value of
    the last of them. *)
Theorem header_value_of_all_declarations
    (formatters : string -> option Formatter) (dom : FormDOM)
    (submitter : option Submitter) (n : string) :
  n ∈ (collectHeaders formatters dom submitter).*1 →
  filter (fun e : string * string => e.1 = n) (collectHeaders formatters dom submitter)
  = [(n, if combinable n
         then join ", " (filter (fun x => nonempty x)
                           (computeValue formatters dom submitter
                              <$> declared n (request_headers dom)))
         else default EmptyString
                (last (computeValue formatters dom submitter
                         <$> declared n (request_headers dom))))].
Proof.
  intros (Hn & d & Hd & Hdn)%elem_of_collectHeaders_names.
  rewrite collectHeaders_entry by eauto using declared_nonempty.
  unfold segments. destruct (combinable n); [done|].
  destruct (last _) as [v|]; [|done]. simpl. by rewrite emitted_single.
Qed.

Lemma header_value_of_all_declarations_witness :
  filter (fun e : string * string => e.1 = "accept")
         (collectHeaders core_formatters accept_dom None)
  = [("accept", "text/html, application/json")].
Proof.
  apply (header_value_of_all_declarations core_formatters accept_dom None "accept").
  apply list_elem_of_In. vm_compute. tauto.
Defined.

(** X9. Every header name in the output is in lower case, that is, left
    alone by [toLowerCase], and none is empty. *)
Theorem header_names_lower_case
    (formatters : string -> option Formatter) (dom : FormDOM)
    (submitter : option Submitter) (n : string) :
  n ∈ (collectHeaders formatters dom submitter).*1 →
  toLowerCase n = n ∧ n ≠ EmptyString.
Proof.
  intros (Hn & d & _ & <-)%elem_of_collectHeaders_names.
  split; [apply toLowerCase_idemp | done].
Qed.

Lemma header_names_lower_case_witness :
  toLowerCase "x-trace" = "x-trace" ∧ "x-trace" ≠ EmptyString.
Proof.
  apply (header_names_lower_case core_formatters sample_dom None "x-trace").
  apply list_elem_of_In. vm_compute. tauto.
Defined.

Lemma header_map_skip formatters dom submitter l1 rh l2 :
  decl_name rh = EmptyString →
  header_map formatters dom submitter (l1 ++ rh :: l2)
  = header_map formatters dom submitter (l1 ++ l2).
Proof.
  intros Hname. unfold header_map. rewrite !foldl_app. cbn [foldl].
  unfold collectHeaders_step at 2. fold (decl_name rh). by rewrite Hname.
Qed.

(** X10. A request-header fieldset without a header name (no [header]
    attribute, or an empty one) adds nothing to the headers: the output is
    the one of the document without it.  Its fields are consumed all the
    same: the name of each of its inputs is kept out of the routed form
    data. *)
Theorem nameless_declaration_binds_only
    (formatters : string -> option Formatter) (dom : FormDOM)
    (submitter : option Submitter) (l1 l2 : list RequestHeader) (rh : RequestHeader) :
  request_headers dom = l1 ++ rh :: l2 →
  header rh = EmptyString →
  collectHeaders formatters dom submitter
    = collectHeaders formatters (with_request_headers dom (l1 ++ l2)) submitter
  ∧ (∀ el, el ∈ inputs dom rh → el_name el ≠ EmptyString →
           el_name el ∉ (collectFormData dom submitter).*1).
Proof.
  intros Hds Hheader. split.
  - rewrite !collectHeaders_header_map, Hds.
    rewrite header_map_skip by (unfold decl_name; by rewrite Hheader).
    reflexivity.
  - intros el [Hbound Hel]%list_elem_of_filter Hname.
    rewrite collectFormData_free. apply not_elem_of_free_fields.
    apply elem_of_getHeaderBoundFields. split; [done|].
    exists rh, el. split_and!; try done.
    + rewrite Hds. apply elem_of_app. right. left.
    + by apply orb_True.
Qed.

Lemma nameless_declaration_binds_only_witness :
  collectHeaders core_formatters accept_dom None
    = [("accept", "text/html, application/json")]
  ∧ "secret" ∉ (collectFormData accept_dom None).*1.
Proof.
  destruct (nameless_declaration_binds_only core_formatters accept_dom None
              [accept_html] [accept_nothing; accept_json] nameless_header
              eq_refl eq_refl) as [Hheaders Hbound].
  split.
  - rewrite Hheaders. vm_compute. reflexivity.
  - apply (Hbound {| el_name := "secret"; el_for := None; el_within := [13] |}).
    + apply list_elem_of_In. vm_compute. tauto.
    + discriminate.
Defined.

(** ** More on the routing *)

(** X11. Routing neither invents nor reorders fields: the routed form
    data is the form data with some entries left out, and an entry of the
    form data is routed exactly when its name is not header-bound. *)
Theorem routed_fields_partition (dom : FormDOM) (submitter : option Submitter) :
  collectFormData dom submitter `sublist_of` formData dom submitter
  ∧ (∀ e, e ∈ collectFormData dom submitter ↔
          e ∈ formData dom submitter ∧ e.1 ∉ getHeaderBoundFields dom).
Proof.
  rewrite collectFormData_free. unfold free_fields. split.
  - apply sublist_filter.
  - intros e. rewrite list_elem_of_filter. tauto.
Qed.

Lemma routed_fields_partition_witness :
  collectFormData accept_dom None = [("q", Text "rocq")]
  ∧ collectFormData accept_dom None `sublist_of` formData accept_dom None.
Proof.
  split; [vm_compute; reflexivity|].
  exact (proj1 (routed_fields_partition accept_dom None)).
Defined.

Lemma computeValue_formData formatters dom s1 s2 rh :
  formData dom s1 = formData dom s2 →
  computeValue formatters dom s1 rh = computeValue formatters dom s2 rh.
Proof. intros Hfd. unfold computeValue, values. by rewrite Hfd. Qed.

Lemma header_map_formData formatters dom s1 s2 ds :
  formData dom s1 = formData dom s2 →
  header_map formatters dom s1 ds = header_map formatters dom s2 ds.
Proof.
  intros Hfd. unfold header_map. generalize (@nil (string * list string)).
  induction ds as [|d ds IH]; intros acc; [done|]. cbn [foldl]. rewrite IH.
  f_equal. unfold collectHeaders_step. by rewrite (computeValue_formData _ _ s1 s2).
Qed.

(** X12. A submit button that overrides nothing (no [formmethod], no
    [formaction] attribute, no [formenctype]) and adds no entry of its own
    to the form data builds the request the form builds without it. *)
Theorem plain_submitter_changes_nothing
    (formatters : string -> option Formatter) (dom : FormDOM) (s : Submitter) :
  formMethod s = EmptyString → has_formaction s = false →
  formEnctype s = EmptyString →
  formData dom (Some s) = formData dom None →
  buildRequest formatters dom (Some s) = buildRequest formatters dom None.
Proof.
  intros Hmethod Haction Henctype Hfd.
  assert (Hm : effective_method dom (Some s) = effective_method dom None).
  { unfold effective_method. simpl. by rewrite Hmethod. }
  assert (Ha : effective_action dom (Some s) = effective_action dom None).
  { unfold effective_action. by rewrite Haction. }
  assert (He : effective_enctype dom (Some s) = effective_enctype dom None).
  { unfold effective_enctype. simpl. by rewrite Henctype. }
  assert (Hh : collectHeaders formatters dom (Some s) = collectHeaders formatters dom None).
  { rewrite !collectHeaders_header_map. by rewrite (header_map_formData _ _ (Some s) None). }
  assert (Hc : collectFormData dom (Some s) = collectFormData dom None).
  { unfold collectFormData. by rewrite Hfd. }
  unfold buildRequest. by rewrite Hm, Ha, He, Hh, Hc.
Qed.

Lemma plain_submitter_changes_nothing_witness :
  buildRequest core_formatters accept_dom (Some plain_button)
  = buildRequest core_formatters accept_dom None.
Proof.
  apply plain_submitter_changes_nothing; reflexivity.
Defined.

Lemma upper_char_not_lower c : is_lower (upper_char c) = false.
Proof. destruct c as [[] [] [] [] [] [] [] []]; reflexivity. Qed.

Lemma toUpperCase_not_lower s :
  string_forall (fun c => negb (is_lower c)) (toUpperCase s) = true.
Proof.
  induction s as [|c s IH]; [done|]. cbn [toUpperCase string_forall].
  by rewrite upper_char_not_lower, IH.
Qed.

Lemma toUpperCase_nonempty s : nonempty (toUpperCase s) = nonempty s.
Proof. by destruct s. Qed.

Lemma or_else_nonempty a b : nonempty b = true → nonempty (or_else a b) = true.
Proof. intros Hb. unfold or_else. by destruct (nonempty a) eqn:Ha. Qed.

(** X13. The effective method is never empty and holds no letter of
    [a-z], however the attributes are spelled; the effective enctype and
    the target of a submission are never empty either. *)
Theorem effective_settings_well_formed (dom : FormDOM) (submitter : option Submitter) :
  nonempty (effective_method dom submitter) = true
  ∧ string_forall (fun c => negb (is_lower c)) (effective_method dom submitter) = true
  ∧ nonempty (effective_enctype dom submitter) = true
  ∧ nonempty (submit_target dom submitter) = true.
Proof.
  unfold effective_method, effective_enctype, submit_target. split_and!.
  - rewrite toUpperCase_nonempty. by do 2 apply or_else_nonempty.
  - apply toUpperCase_not_lower.
  - by do 2 apply or_else_nonempty.
  - by do 2 apply or_else_nonempty.
Qed.

Lemma effective_settings_well_formed_witness :
  effective_method accept_dom None = "DELETE"
  ∧ nonempty (effective_enctype accept_dom None) = true.
Proof.
  split; [vm_compute; reflexivity|].
  exact (proj1 (proj2 (proj2 (effective_settings_well_formed accept_dom None)))).
Defined.

(** ** More on the submission *)

(** X14. [submit] after [requestSubmit]: whatever became of the
    [requestSubmit] (stopped at validation, cancelled or sent), a later
    [submit] builds its request with the submitter that call was given
    and, when the constructor returns the request, fetches it without
    validation and without a submit event, for the form's own target: the
    submitter's [formtarget] is not consulted. *)
Theorem submit_reuses_last_submitter
    (formatters : string -> option Formatter) (listeners : list Listener)
    (submitter : option Submitter) (this : HTTPAwareForm) (request : Request) :
  new_Request (buildRequest formatters (dom this) submitter) = Some request →
  (submit formatters (requestSubmit formatters listeners submitter this).1).2
  = [Fetch request (or_else (target (dom this)) "_self")].
Proof.
  unfold new_Request. destruct (new_Request_throws _); [discriminate|].
  intros [= <-]. unfold requestSubmit, submit. cbn zeta.
  by destruct (shouldValidate _ _ && negb _).
Qed.

Lemma submit_reuses_last_submitter_witness :
  (requestSubmit core_formatters [observing] (Some post_button)
     (connected invalid_dom)).2 = [ReportValidity]
  ∧ effective_method invalid_dom (Some post_button) = "POST"
  ∧ (submit core_formatters
       (requestSubmit core_formatters [observing] (Some post_button)
          (connected invalid_dom)).1).2
    = [Fetch (buildRequest core_formatters invalid_dom (Some post_button)) "_self"].
Proof.
  split_and!; [reflexivity | reflexivity |].
  exact (submit_reuses_last_submitter core_formatters [observing] (Some post_button)
           (connected invalid_dom) _ eq_refl).
Defined.

(** X16. With [novalidate] on the form or [formnovalidate] on the
    submitter the constraint check is not consulted: when the constructor
    returns the request, even an invalid form gets its submit event, which
    comes first and shows that request, and nothing is reported. *)
Theorem novalidate_skips_validation
    (formatters : string -> option Formatter) (listeners : list Listener)
    (submitter : option Submitter) (this : HTTPAwareForm) (request : Request) :
  noValidate (dom this) = true ∨ from_option formNoValidate false submitter = true →
  new_Request (buildRequest formatters (dom this) submitter) = Some request →
  head (requestSubmit formatters listeners submitter this).2
  = Some (DispatchSubmit (http_aware_event submitter) (Some request))
  ∧ ReportValidity ∉ (requestSubmit formatters listeners submitter this).2.
Proof.
  intros Hskip. unfold new_Request. destruct (new_Request_throws _); [discriminate|].
  intros [= <-].
  assert (Hsv : shouldValidate (dom this) submitter = false).
  { unfold shouldValidate. destruct Hskip as [-> | ->]; [done|]. by rewrite orb_true_r. }
  unfold requestSubmit. cbn zeta. cbn [dom _submitter preparedRequest]. rewrite Hsv.
  cbn [andb snd]. destruct (dispatchEvent _ _ _).
  - split; [done|]. rewrite !not_elem_of_cons. split_and!; try done. apply not_elem_of_nil.
  - split; [done|]. rewrite !not_elem_of_cons. split_and!; try done. apply not_elem_of_nil.
Qed.

Lemma novalidate_skips_validation_witness :
  checkValidity blank_dom = false
  ∧ head (requestSubmit core_formatters [observing] None (connected blank_dom)).2
    = Some (DispatchSubmit (http_aware_event None)
              (Some (buildRequest core_formatters blank_dom None)))
  ∧ req_headers (buildRequest core_formatters blank_dom None) = [("range", "")].
Proof.
  split_and!; [reflexivity| |reflexivity].
  apply (novalidate_skips_validation core_formatters [observing] None (connected blank_dom)).
  - left. reflexivity.
  - reflexivity.
Defined.

(** X17. The handler the form registers for itself answers a native
    submit event by cancelling it and calling [requestSubmit] with its
    submitter, and lets an event that carries [_httpAware] pass untouched;
    so having it among the handlers changes nothing in what [requestSubmit]
    does, and [requestSubmit] is not entered a second time. *)
Theorem own_handler_is_neutral
    (formatters : string -> option Formatter) (listeners before : list Listener)
    (submitter : option Submitter) (this : HTTPAwareForm) :
  requestSubmit formatters (before ++ own_handler :: listeners) submitter this
    = requestSubmit formatters (before ++ listeners) submitter this
  ∧ (∀ ev that,
       (_handleNativeSubmit formatters listeners ev that).1 = own_handler ev that)
  ∧ (∀ ev that, _httpAware ev = true →
       _handleNativeSubmit formatters listeners ev that = (false, (that, [])))
  ∧ (∀ ev that, _httpAware ev = false →
       _handleNativeSubmit formatters listeners ev that
       = (true, requestSubmit formatters listeners (ev_submitter ev) that)).
Proof.
  split_and!.
  - unfold requestSubmit, dispatchEvent. cbn zeta.
    by rewrite !existsb_app.
  - intros ev that. unfold _handleNativeSubmit, own_handler. by destruct (_httpAware ev).
  - intros ev that Hev. unfold _handleNativeSubmit. by rewrite Hev.
  - intros ev that Hev. unfold _handleNativeSubmit. by rewrite Hev.
Qed.

Lemma own_handler_is_neutral_witness :
  requestSubmit core_formatters ([observing] ++ own_handler :: [cancelling]) None
    (connected sample_dom)
  = requestSubmit core_formatters ([observing] ++ [cancelling]) None (connected sample_dom).
Proof.
  exact (proj1 (own_handler_is_neutral core_formatters [cancelling] [observing] None
                  (connected sample_dom))).
Defined.

(** ** After the fetch *)

Lemma prefix_append sub rest : String.prefix sub (sub +:+ rest) = true.
Proof.
  induction sub as [|c sub IH]; [by destruct rest|].
  rewrite append_cons. cbn [String.prefix].
  destruct (ascii_dec c c); [exact IH|done].
Qed.

Lemma includes_infix before sub after : includes (before +:+ sub +:+ after) sub = true.
Proof.
  induction before as [|c before IH].
  - rewrite append_nil_l. destruct (sub +:+ after) eqn:E; cbn [includes];
      rewrite <- E, prefix_append; reflexivity.
  - rewrite append_cons. cbn [includes]. rewrite IH. apply orb_true_r.
Qed.

(** X18. Every response that arrives navigates, and exactly once,
    whatever its status: one of writing the document, opening a window and
    assigning the location.  A fetch that is rejected does not navigate; it
    raises the error event and logs the error. *)
Theorem settled_fetch_navigates_once
    (req : Request) (target : string) (outcome : FetchOutcome) :
  length (filter (fun e => is_navigation e) (settle req target outcome))
  = match outcome with Resolved _ => 1 | Rejected _ => 0 end
  ∧ (∀ error, outcome = Rejected error →
              settle req target outcome = [HttpErrorEvent error; ConsoleError error]).
Proof.
  split; [|by intros error ->].
  destruct outcome as [response|error]; [|done].
  unfold settle, navigateWithResponse. rewrite filter_app.
  destruct (Nat.eqb _ 204), (negb _ && includes _ _), (String.eqb target "_blank"); done.
Qed.

Lemma settled_fetch_navigates_once_witness :
  length (filter (fun e => is_navigation e)
            (settle (buildRequest core_formatters sample_dom None) "_self"
               (Resolved not_found_page))) = 1.
Proof.
  exact (proj1 (settled_fetch_navigates_once (buildRequest core_formatters sample_dom None)
                  "_self" (Resolved not_found_page))).
Defined.

(** X19. What is written and what is only visited.  A redirected response
    and a response without [text/html] in its content type are never
    written into a document: after the warning a status of 204 brings, the
    one thing done is to open the URL of the response in a new window when
    the target is [_blank], and to assign it to the location for any other
    target.  The history gets an entry exactly when the current document
    was replaced. *)
Theorem written_or_visited (response : Response) (method target : string) :
  (redirected response = true
   ∨ includes (attr_or_empty (content_type response)) "text/html" = false →
   existsb is_write (navigateWithResponse response method target) = false
   ∧ (target = "_blank" →
      filter (fun e => is_navigation e) (navigateWithResponse response method target)
      = [WindowOpen (response_url response)]
      ∧ (status response ≠ 204 →
         navigateWithResponse response method target
         = [WindowOpen (response_url response)]))
   ∧ (target ≠ "_blank" →
      filter (fun e => is_navigation e) (navigateWithResponse response method target)
      = [LocationAssign (response_url response)]
      ∧ (status response ≠ 204 →
         navigateWithResponse response method target
         = [LocationAssign (response_url response)]))
   ∧ (status response = 204 →
      head (navigateWithResponse response method target)
      = Some (ConsoleWarn method (response_url response))
      ∧ length (navigateWithResponse response method target) = 2))
  ∧ (PushState (response_url response) ∈ navigateWithResponse response method target
     ↔ DocumentWrite false (response_text response)
         ∈ navigateWithResponse response method target).
Proof.
  unfold navigateWithResponse. split.
  - intros Hvisit.
    assert (Hcond : negb (redirected response)
                    && includes (attr_or_empty (content_type response)) "text/html" = false).
    { destruct Hvisit as [-> | ->]; [done|]. apply andb_false_r. }
    rewrite Hcond, existsb_app, filter_app.
    split_and!.
    + by destruct (Nat.eqb _ 204), (String.eqb target "_blank").
    + intros ->. cbn [String.eqb Ascii.eqb Bool.eqb].
      split; [by destruct (Nat.eqb _ 204)|].
      intros Hs. apply Nat.eqb_neq in Hs. by rewrite Hs.
    + intros Ht. apply String.eqb_neq in Ht. rewrite Ht.
      split; [by destruct (Nat.eqb _ 204)|].
      intros Hs. apply Nat.eqb_neq in Hs. by rewrite Hs.
    + intros ->. by destruct (String.eqb target "_blank").
  - destruct (Nat.eqb _ 204), (negb _ && includes _ _), (String.eqb target "_blank");
      simpl; rewrite ?elem_of_cons, ?elem_of_nil; split; intros H;
      repeat (destruct H as [H|H]; try discriminate H); auto; try done.
Qed.

Lemma written_or_visited_witness :
  navigateWithResponse redirected_page "POST" "_blank"
  = [WindowOpen "https://example.test/login"]
  ∧ navigateWithResponse redirected_page "POST" "_self"
    = [LocationAssign "https://example.test/login"].
Proof.
  destruct (proj1 (written_or_visited redirected_page "POST" "_blank"))
    as (_ & Hblank & _ & _); [left; reflexivity|].
  destruct (proj1 (written_or_visited redirected_page "POST" "_self"))
    as (_ & _ & Hself & _); [left; reflexivity|].
  split.
  - apply Hblank; [reflexivity | discriminate].
  - apply Hself; discriminate.
Defined.

(** X20. Of the target only [_blank] is told apart: every other target,
    [_top], [_parent] or the name of a frame, is served like [_self]. *)
Theorem other_targets_act_as_self (response : Response) (method target : string) :
  target ≠ "_blank" →
  navigateWithResponse response method target
  = navigateWithResponse response method "_self".
Proof.
  intros Htarget. unfold navigateWithResponse.
  by destruct (String.eqb_spec target "_blank").
Qed.

Lemma other_targets_act_as_self_witness :
  navigateWithResponse not_found_page "GET" "_top"
  = navigateWithResponse not_found_page "GET" "_self".
Proof. apply other_targets_act_as_self. discriminate. Defined.

(** X21. A response that was not redirected and whose content type holds
    [text/html] anywhere (before a charset parameter, say) is written into
    the document; one without content type is not. *)
Theorem html_is_detected_by_substring
    (response : Response) (method target before after : string) :
  redirected response = false →
  (content_type response = Some (before +:+ "text/html" +:+ after) →
   DocumentWrite (String.eqb target "_blank") (response_text response)
     ∈ navigateWithResponse response method target)
  ∧ (content_type response = None →
     existsb is_write (navigateWithResponse response method target) = false).
Proof.
  intros Hred. unfold navigateWithResponse. rewrite Hred. split.
  - intros ->. cbn [attr_or_empty negb andb]. rewrite includes_infix.
    apply elem_of_app. right. left.
  - intros ->. rewrite existsb_app.
    by destruct (Nat.eqb _ 204), (String.eqb target "_blank").
Qed.

Lemma html_is_detected_by_substring_witness :
  DocumentWrite true "<h1>Not found</h1>"
    ∈ navigateWithResponse not_found_page "GET" "_blank".
Proof.
  exact (proj1 (html_is_detected_by_substring not_found_page "GET" "_blank"
                  "" "; charset=utf-8" eq_refl) eq_refl).
Defined.

(** ** Binding by [for] *)

(** X22. The [for] attribute is compared with the id of the fieldset as it
    is, so an element whose [for] attribute is empty is an input of every
    request-header fieldset that has no id, wherever the element stands;
    if it has a name, its entries are kept out of the routed form data. *)
Theorem empty_for_binds_to_idless
    (dom : FormDOM) (submitter : option Submitter) (rh : RequestHeader) (el : Element) :
  rh ∈ request_headers dom → el ∈ elements dom →
  rh_id rh = EmptyString → el_for el = Some EmptyString →
  el ∈ inputs dom rh
  ∧ (el_name el ≠ EmptyString → el_name el ∉ (collectFormData dom submitter).*1).
Proof.
  intros Hrh Hel Hid Hfor.
  assert (Hbound : for_is rh el = true) by (unfold for_is; by rewrite Hfor, Hid).
  split.
  - apply list_elem_of_filter. split; [by rewrite Hbound|done].
  - intros Hname. rewrite collectFormData_free. apply not_elem_of_free_fields.
    apply elem_of_getHeaderBoundFields. split; [done|].
    exists rh, el. split_and!; try done. left. by rewrite Hbound.
Qed.

Lemma empty_for_binds_to_idless_witness :
  collectFormData empty_for_dom None = []
  ∧ "q" ∉ (collectFormData empty_for_dom None).*1.
Proof.
  split; [vm_compute; reflexivity|].
  refine (proj2 (empty_for_binds_to_idless empty_for_dom None accept_html
                   {| el_name := "q"; el_for := Some ""; el_within := [] |} _ _ _ _) _).
  - left.
  - left.
  - reflexivity.
  - reflexivity.
  - discriminate.
Defined.
